(** * DTKLPR wrapper: a model of [dtklp_wrapper/modules.py]

    The module is a ctypes binding over a closed native library.  The
    model keeps the Python classes ([Lib], [EngineParams], [ImageEngine],
    [Result], [Plate]) as records with their methods, treats the native
    library as a function table answering each foreign call from the
    history of calls made so far, and records every foreign call in a
    trace.  Python exceptions are the left summand of the result. *)

From Stdlib Require Import ZArith NArith List Bool Lia.
From Stdlib Require Import Strings.String Strings.Ascii Strings.Byte.
Import ListNotations.
Open Scope Z_scope.

(** ** Python values and exceptions *)

(** Exceptions that the modelled code paths can raise.  [OSError] stands
    for whatever a foreign call itself raises. *)
Inductive exn : Type :=
| TypeError
| ValueError
| AttributeError
| UnicodeEncodeError
| OSError.

(** Argument values as they appear at a call site, before they are bound
    to the parameters of the callee. *)
Inductive pyval : Type :=
| VInt (z : Z)
| VBytes (b : list byte).

(** ** The native function table *)

(** One constructor per entry point of the shared library, with the
    arguments as marshalled by ctypes.  A buffer argument is the content
    of the [c_char] array handed over. *)
Inductive call : Type :=
| LPRParams_Create
| LPRParams_Destroy (params_obj : Z)
| LPREngine_Create (params_obj : Z) (vid_mode : bool) (callback : option Z)
| LPREngine_Destroy (engine_obj : Z)
| LPREngine_ReadFromMemFile (engine_obj : pyval) (data : list byte) (size : Z)
| LPRResult_Destroy (result_obj : Z)
| LPRResult_GetPlatesCount (result_obj : Z)
| LPRResult_GetPlate (result_obj : Z) (index : Z)
| LicensePlate_Destroy (plate_obj : Z)
| LicensePlate_GetText (plate_obj : Z) (data : list byte) (size : Z)
| LPREngine_IsLicensed (engine_obj : Z)
| LPREngine_ActivateLicenseOnline (data : list byte).

(** What a foreign call does: it returns an integer (ctypes' default
    result type) and may have written [out] at the start of the buffer it
    was given, or it raises. *)
Inductive outcome : Type :=
| Returns (ret : Z) (out : list byte)
| Raises (e : exn).

Inductive event : Type :=
| Ev (c : call) (o : outcome).

Definition trace : Type := list event.

(** [ct.CDLL(lib_path)]: the loaded library answers a call given the
    calls already made. *)
Definition CDLL : Type := trace -> call -> outcome.

(** ** Computations

    A computation takes the trace of foreign calls made so far and yields
    a result together with the trace extended by the foreign calls it
    made itself, oldest first.  A method takes its object and returns the
    updated object with its result; when it raises, the object is not
    returned, and what a caller does with an object whose method raised
    is outside the model. *)
Definition M (A : Type) : Type := trace -> (exn + A) * trace.

Definition ret {A} (a : A) : M A := fun h => (inr a, h).

Definition raise {A} (e : exn) : M A := fun h => (inl e, h).

Definition bind {A B} (m : M A) (k : A -> M B) : M B :=
  fun h =>
    match m h with
    | (inl e, h1) => (inl e, h1)
    | (inr a, h1) => k a h1
    end.

Declare Scope py_scope.
Delimit Scope py_scope with py.
Notation "x <- m ;; k" := (bind m (fun x => k))
  (at level 61, m at next level, right associativity) : py_scope.
Notation "m ;;; k" := (bind m (fun _ => k))
  (at level 61, right associativity) : py_scope.
Open Scope py_scope.

Definition lift {A} (r : exn + A) : M A := fun h => (r, h).

(** A foreign call through the function table; it is recorded whether it
    returns or raises. *)
Definition foreign (dll : CDLL) (c : call) : M (Z * list byte) :=
  fun h =>
    match dll h c with
    | Returns z out => (inr (z, out), h ++ [Ev c (Returns z out)])
    | Raises e => (inl e, h ++ [Ev c (Raises e)])
    end.

(** The context-manager protocol.  [__enter__] may update the manager and
    yields the value bound by [as]; [__exit__] runs when the body is left,
    normally or by an exception, but not when [__enter__] itself raised.
    Every [__exit__] of this module returns [None], so an exception of the
    body propagates after it; an exception raised by [__exit__] itself
    replaces it. *)
Class ContextManager (S A : Type) : Type := {
  cm_enter : S -> M (S * A);
  cm_exit : S -> M unit
}.

Definition with_ {S A B} `{ContextManager S A} (mgr : S) (body : A -> M B)
  : M (S * B) :=
  fun h =>
    match cm_enter mgr h with
    | (inl e, h1) => (inl e, h1)
    | (inr (mgr', a), h1) =>
        match body a h1 with
        | (r, h2) =>
            match cm_exit mgr' h2 with
            | (inl e, h3) => (inl e, h3)
            | (inr _, h3) =>
                (match r with inl e => inl e | inr b => inr (mgr', b) end, h3)
            end
        end
    end.

(** Positional binding of a call with two declared parameters after
    [self], none of them with a default: any other number of arguments
    raises [TypeError] before the body runs. *)
Definition apply2 {R} (f : pyval -> pyval -> M R) (args : list pyval) : M R :=
  match args with
  | [a1; a2] => f a1 a2
  | _ => raise TypeError
  end.

(** ** The built-ins and ctypes operations the module uses *)

Definition len {A} (l : list A) : Z := Z.of_nat (List.length l).

(** [range(n)]: empty when [n <= 0]. *)
Definition range (n : Z) : list Z := map Z.of_nat (seq 0 (Z.to_nat n)).

(** [bytearray(x)]: a copy of a bytes object, or that many zero bytes. *)
Definition bytearray (x : pyval) : exn + list byte :=
  match x with
  | VBytes b => inr b
  | VInt n => if n <? 0 then inl ValueError else inr (repeat x00 (Z.to_nat n))
  end.

(** [bytes(ba)] of a bytearray keeps the content. *)
Definition bytes (ba : list byte) : list byte := ba.

(** A Python [str] is a sequence of code points (below [0x110000]). *)
Definition pystr : Type := list N.

Definition byte_of_N (n : N) : byte :=
  match Byte.of_N n with Some b => b | None => x00 end.

(** [str.encode()]: UTF-8, strict; a surrogate code point has no
    encoding. *)
Definition encode_char (c : N) : exn + list byte :=
  (if c <? 0x80 then inr [byte_of_N c]
   else if c <? 0x800 then
     inr [byte_of_N (N.lor 0xC0 (N.shiftr c 6));
          byte_of_N (N.lor 0x80 (N.land c 0x3F))]
   else if (0xD800 <=? c) && (c <? 0xE000) then inl UnicodeEncodeError
   else if c <? 0x10000 then
     inr [byte_of_N (N.lor 0xE0 (N.shiftr c 12));
          byte_of_N (N.lor 0x80 (N.land (N.shiftr c 6) 0x3F));
          byte_of_N (N.lor 0x80 (N.land c 0x3F))]
   else
     inr [byte_of_N (N.lor 0xF0 (N.land (N.shiftr c 18) 0x07));
          byte_of_N (N.lor 0x80 (N.land (N.shiftr c 12) 0x3F));
          byte_of_N (N.lor 0x80 (N.land (N.shiftr c 6) 0x3F));
          byte_of_N (N.lor 0x80 (N.land c 0x3F))])%N.

Fixpoint encode (s : pystr) : exn + list byte :=
  match s with
  | [] => inr []
  | c :: s' =>
      match encode_char c with
      | inl e => inl e
      | inr bs =>
          match encode s' with
          | inl e => inl e
          | inr rest => inr (bs ++ rest)
          end
      end
  end.

(** [b[0:stop]] on a bytes object: a negative [stop] counts from the end,
    and both ends are clipped to the object. *)
Definition slice_to (b : list byte) (stop : Z) : list byte :=
  let stop' := if stop <? 0 then Z.max 0 (stop + len b) else Z.min stop (len b) in
  firstn (Z.to_nat stop') b.

(** [repr] of a bytes object, which is what [str(b)] returns for one:
    [b'...'], in double quotes when the content has a single quote and no
    double quote; the quote and the backslash are escaped, tab, newline and
    carriage return are written [\t], [\n], [\r], any other byte outside
    the printable ASCII range is written [\xhh]. *)
Definition hexdigit (n : N) : byte :=
  nth (N.to_nat n) [x30; x31; x32; x33; x34; x35; x36; x37; x38; x39;
                    x61; x62; x63; x64; x65; x66] x30.

Definition repr_byte (quote c : byte) : list byte :=
  if Byte.eqb c quote || Byte.eqb c x5c then [x5c; c]
  else if Byte.eqb c x09 then [x5c; x74]
  else if Byte.eqb c x0a then [x5c; x6e]
  else if Byte.eqb c x0d then [x5c; x72]
  else if (Byte.to_N c <? 0x20)%N || (0x7f <=? Byte.to_N c)%N then
    [x5c; x78; hexdigit (N.shiftr (Byte.to_N c) 4);
     hexdigit (N.land (Byte.to_N c) 0xf)]
  else [c].

Definition repr_bytes (b : list byte) : list byte :=
  let squotes := existsb (Byte.eqb x27) b in
  let dquotes := existsb (Byte.eqb x22) b in
  let quote := if squotes && negb dquotes then x22 else x27 in
  x62 :: quote :: flat_map (repr_byte quote) b ++ [quote].

Definition str (b : list byte) : string := string_of_list_byte (repr_bytes b).

Module ct.

(** [(c_char * size)()]: a zero-filled array; a negative length is
    refused. *)
Definition c_char_array (size : Z) : exn + list byte :=
  if size <? 0 then inl ValueError else inr (repeat x00 (Z.to_nat size)).

(** Writing [src] at the start of [buf]; the array keeps its size. *)
Definition overlay (src buf : list byte) : list byte :=
  firstn (List.length buf) (src ++ skipn (List.length src) buf).

(** [buf.value = v]: refused when [v] is longer than the array; a
    terminating zero is added when there is room for it. *)
Definition set_value (buf v : list byte) : exn + list byte :=
  if len buf <? len v then inl ValueError
  else inr (overlay (if len v <? len buf then v ++ [x00] else v) buf).

(** [buf.value]: the content up to the first zero byte, the whole array
    when it has none. *)
Fixpoint value (buf : list byte) : list byte :=
  match buf with
  | [] => []
  | c :: rest => if Byte.eqb c x00 then [] else c :: value rest
  end.

(** [create_string_buffer(init, size=None)]. *)
Definition create_string_buffer (init : pyval) (size : option Z)
  : exn + list byte :=
  match init with
  | VBytes b =>
      let size := match size with Some s => s | None => len b + 1 end in
      match c_char_array size with
      | inl e => inl e
      | inr buf => set_value buf b
      end
  | VInt n => c_char_array n
  end.

End ct.

(** Reading an attribute that may not have been assigned yet. *)
Definition getattr {A} (field : option A) : M A :=
  match field with
  | Some a => ret a
  | None => raise AttributeError
  end.

(** ** class Lib (lines 5-149)

    Every method is a pass-through to one entry point; handles are the
    integers ctypes returns. *)

Module Lib.

Record t : Type := { lib : CDLL; BUF_SIZE : Z }.

(** [ct.CDLL(lib_path)] is the function table the path resolves to. *)
Definition __init__ (dll : CDLL) (buffer_size : Z) : t :=
  {| lib := dll; BUF_SIZE := buffer_size |}.

Definition create_params (self : t) : M Z :=
  r <- foreign (lib self) LPRParams_Create ;;
  ret (fst r).

Definition destroy_params (self : t) (params_obj : Z) : M unit :=
  foreign (lib self) (LPRParams_Destroy params_obj) ;;;
  ret tt.

Definition create_engine (self : t) (params_obj : Z) (vid_mode : bool)
    (callback : option Z) : M Z :=
  r <- foreign (lib self) (LPREngine_Create params_obj vid_mode callback) ;;
  ret (fst r).

Definition destroy_engine (self : t) (enigne_obj : Z) : M unit :=
  foreign (lib self) (LPREngine_Destroy enigne_obj) ;;;
  ret tt.

(** Lines 59-71.  [engine_obj] is forwarded as it is. *)
Definition read_from_mem (self : t) (engine_obj buffer : pyval) : M Z :=
  ba <- lift (bytearray buffer) ;;
  data <- lift (ct.create_string_buffer (VBytes (bytes ba)) (Some (len ba))) ;;
  r <- foreign (lib self) (LPREngine_ReadFromMemFile engine_obj data (len ba)) ;;
  ret (fst r).

Definition destroy_result (self : t) (result_obj : Z) : M unit :=
  foreign (lib self) (LPRResult_Destroy result_obj) ;;;
  ret tt.

Definition get_plates_count (self : t) (result_obj : Z) : M Z :=
  r <- foreign (lib self) (LPRResult_GetPlatesCount result_obj) ;;
  ret (fst r).

Definition get_plate (self : t) (result_obj : Z) (index : Z) : M Z :=
  r <- foreign (lib self) (LPRResult_GetPlate result_obj index) ;;
  ret (fst r).

Definition destroy_plate (self : t) (plate_obj : Z) : M unit :=
  foreign (lib self) (LicensePlate_Destroy plate_obj) ;;;
  ret tt.

(** The bytes that [get_plate_text] hands to [str]: the expression
    [data.value[0:writen]] once the foreign call has written [out] into
    the scratch buffer [data]. *)
Definition text_bytes (data out : list byte) (writen : Z) : list byte :=
  slice_to (ct.value (ct.overlay out data)) writen.

(** Lines 114-125: [str(data.value[0:writen])]. *)
Definition get_plate_text (self : t) (plate_obj : Z) : M string :=
  data <- lift (ct.create_string_buffer (VInt (BUF_SIZE self)) None) ;;
  r <- foreign (lib self) (LicensePlate_GetText plate_obj data (BUF_SIZE self)) ;;
  let writen := fst r in
  ret (str (text_bytes data (snd r) writen)).

Definition engine_licensed (self : t) (engine_obj : Z) : M Z :=
  r <- foreign (lib self) (LPREngine_IsLicensed engine_obj) ;;
  ret (fst r).

(** Lines 138-149. *)
Definition activate_online (self : t) (key : pystr) : M Z :=
  enc <- lift (encode key) ;;
  ba <- lift (bytearray (VBytes enc)) ;;
  data <- lift (ct.create_string_buffer (VBytes (bytes ba)) (Some (len ba))) ;;
  r <- foreign (lib self) (LPREngine_ActivateLicenseOnline data) ;;
  ret (fst r).

End Lib.

(** ** class EngineParams (lines 152-172)

    [obj] is unset until the first entry. *)

Module EngineParams.

Record t : Type := { lib : Lib.t; obj : option Z }.

Definition __init__ (lib : Lib.t) : t := {| lib := lib; obj := None |}.

(** Returns [self.obj], the handle, not [self]. *)
Definition __enter__ (self : t) : M (t * Z) :=
  h <- Lib.create_params (lib self) ;;
  ret ({| lib := lib self; obj := Some h |}, h).

Definition __exit__ (self : t) : M unit :=
  h <- getattr (obj self) ;;
  Lib.destroy_params (lib self) h.

#[global] Instance manager : ContextManager t Z :=
  {| cm_enter := __enter__; cm_exit := __exit__ |}.

End EngineParams.

(** ** class Plate (lines 284-319)

    The text is loaded by [__enter__]; [__exit__] destroys the handle. *)

Module Plate.

Record t : Type := { obj : Z; lib : Lib.t; text : option string }.

Definition __init__ (obj : Z) (lib : Lib.t) : t :=
  {| obj := obj; lib := lib; text := None |}.

Definition _load (self : t) : M t :=
  s <- Lib.get_plate_text (lib self) (obj self) ;;
  ret {| obj := obj self; lib := lib self; text := Some s |}.

Definition __enter__ (self : t) : M (t * t) :=
  self' <- _load self ;;
  ret (self', self').

Definition __exit__ (self : t) : M unit :=
  Lib.destroy_plate (lib self) (obj self).

Definition describe (self : t) : M string := getattr (text self).

#[global] Instance manager : ContextManager t t :=
  {| cm_enter := __enter__; cm_exit := __exit__ |}.

End Plate.

(** ** class Result (lines 239-281)

    The count and the plate texts are loaded by [__enter__]; [__exit__]
    destroys the handle. *)

(** The dictionary [{"found": ..., "plates": [...]}]. *)
Record description : Type := { found : Z; plates : list string }.

Module Result.

Record t : Type := {
  obj : Z;
  lib : Lib.t;
  plates_count : option Z;
  plates : option (list string)
}.

Definition __init__ (obj : Z) (lib : Lib.t) : t :=
  {| obj := obj; lib := lib; plates_count := None; plates := None |}.

(** The [for] loop of [_load] over the remaining indices; [acc] is
    [self.plates] so far. *)
Fixpoint load_loop (self : t) (indices : list Z) (acc : list string)
  : M (list string) :=
  match indices with
  | [] => ret acc
  | i :: rest =>
      h <- Lib.get_plate (lib self) (obj self) i ;;
      r <- with_ (Plate.__init__ h (lib self)) (fun pl => Plate.describe pl) ;;
      load_loop self rest (acc ++ [snd r])
  end.

Definition _load (self : t) : M t :=
  n <- Lib.get_plates_count (lib self) (obj self) ;;
  ps <- load_loop self (range n) [] ;;
  ret {| obj := obj self; lib := lib self;
         plates_count := Some n; plates := Some ps |}.

Definition __enter__ (self : t) : M (t * t) :=
  self' <- _load self ;;
  ret (self', self').

Definition __exit__ (self : t) : M unit :=
  Lib.destroy_result (lib self) (obj self).

Definition describe (self : t) : M description :=
  n <- getattr (plates_count self) ;;
  ps <- getattr (plates self) ;;
  ret (Build_description n ps).

#[global] Instance manager : ContextManager t t :=
  {| cm_enter := __enter__; cm_exit := __exit__ |}.

End Result.

(** ** class ImageEngine (lines 175-236) *)

Module ImageEngine.

Record t : Type := {
  lib : Lib.t;
  params : option EngineParams.t;
  obj : option Z
}.

Definition __init__ (lib : Lib.t) (params : option EngineParams.t) : t :=
  {| lib := lib; params := params; obj := None |}.

(** Lines 189-196: [if not self.params] holds for [None] only, an
    EngineParams object being true. *)
Definition __enter__ (self : t) : M (t * t) :=
  let params' :=
    match params self with
    | None => EngineParams.__init__ (lib self)
    | Some p => p
    end in
  r <- with_ params' (fun ep => Lib.create_engine (lib self) ep false None) ;;
  let self' := {| lib := lib self; params := Some (fst r);
                  obj := Some (snd r) |} in
  ret (self', self').

Definition __exit__ (self : t) : M unit :=
  h <- getattr (obj self) ;;
  Lib.destroy_engine (lib self) h.

Definition is_licensed (self : t) : M bool :=
  h <- getattr (obj self) ;;
  res <- Lib.engine_licensed (lib self) h ;;
  ret (res =? 0).

Definition activate (self : t) (key : pystr) : M bool :=
  res <- Lib.activate_online (lib self) key ;;
  ret (res =? 0).

(** Lines 225-236.  Line 234 calls [self.lib.read_from_mem(bytes)]: one
    positional argument for the two parameters [engine_obj] and
    [buffer]. *)
Definition process (self : t) (bytes : list byte) : M description :=
  h <- apply2 (Lib.read_from_mem (lib self)) [VBytes bytes] ;;
  let res := Result.__init__ h (lib self) in
  r <- with_ res (fun res' => Result.describe res') ;;
  ret (snd r).

#[global] Instance manager : ContextManager t t :=
  {| cm_enter := __enter__; cm_exit := __exit__ |}.

End ImageEngine.

(** * Reference notions, drivers and test libraries *)

(** A function table that answers every call with the same integer. *)
Definition constant_dll (z : Z) : CDLL := fun _ _ => Returns z [].

(** The parameter object an engine enters: the caller's, or a new one
    bound to the engine's library. *)
Definition params_used (self : ImageEngine.t) : EngineParams.t :=
  match ImageEngine.params self with
  | None => EngineParams.__init__ (ImageEngine.lib self)
  | Some p => p
  end.

(** Index of the first zero byte of a buffer, its length when there is
    none. *)
Fixpoint first_zero (buf : list byte) : nat :=
  match buf with
  | [] => 0%nat
  | c :: rest => if Byte.eqb c x00 then 0%nat else S (first_zero rest)
  end.

(** A function table whose LicensePlate_GetText writes [out] into the
    buffer and reports [writen]; every other call returns 0. *)
Definition text_dll (writen : Z) (out : list byte) : CDLL :=
  fun _ c =>
    match c with
    | LicensePlate_GetText _ _ _ => Returns writen out
    | _ => Returns 0 []
    end.

(** The reading of the specification: the first [writtenLength] bytes of
    the scratch buffer, each decoded as the character of its code. *)
Definition claimed_plate_text (buf : list byte) (writtenLength : Z) : string :=
  string_of_list_byte (firstn (Z.to_nat writtenLength) buf).

Inductive scope_op : Type := Enter | Exit.

(** A caller taking one EngineParams object through scope entries and
    exits, going on after an exception (neither method assigns anything
    when it raises). *)
Fixpoint drive (ops : list scope_op) (self : EngineParams.t) (h : trace)
  : EngineParams.t * trace :=
  match ops with
  | [] => (self, h)
  | Enter :: rest =>
      match EngineParams.__enter__ self h with
      | (inr (self', _), h') => drive rest self' h'
      | (inl _, h') => drive rest self h'
      end
  | Exit :: rest =>
      match EngineParams.__exit__ self h with
      | (_, h') => drive rest self h'
      end
  end.

Definition creates_params (p : Z) (ev : event) : bool :=
  match ev with
  | Ev LPRParams_Create (Returns q _) => q =? p
  | _ => false
  end.

Definition destroys_params (p : Z) (ev : event) : bool :=
  match ev with
  | Ev (LPRParams_Destroy q) _ => q =? p
  | _ => false
  end.

(** A function table that answers with 100 plus the number of calls made
    before, so that no two calls return the same integer. *)
Definition counter_dll : CDLL :=
  fun h _ => Returns (100 + Z.of_nat (List.length h)) [].

(** The example of the specification: two plates, AB123CD and XY999ZZ,
    behind result handle 31; the engine handle is 21. *)
Definition example_dll : CDLL :=
  fun _ c =>
    match c with
    | LPRParams_Create => Returns 11 []
    | LPREngine_Create _ _ _ => Returns 21 []
    | LPREngine_ReadFromMemFile _ _ _ => Returns 31 []
    | LPRResult_GetPlatesCount _ => Returns 2 []
    | LPRResult_GetPlate _ i => Returns (41 + i) []
    | LicensePlate_GetText p _ _ =>
        if p =? 41 then Returns 7 [x41; x42; x31; x32; x33; x43; x44]
        else Returns 7 [x58; x59; x39; x39; x39; x5a; x5a]
    | _ => Returns 0 []
    end.

Definition example_engine : ImageEngine.t :=
  {| ImageEngine.lib := Lib.__init__ example_dll 32;
     ImageEngine.params := None;
     ImageEngine.obj := Some 21 |}.

(** The foreign calls of the example once the result handle exists. *)
Definition example_result_calls : trace :=
  [Ev (LPRResult_GetPlatesCount 31) (Returns 2 []);
   Ev (LPRResult_GetPlate 31 0) (Returns 41 []);
   Ev (LicensePlate_GetText 41 (repeat x00 32) 32)
      (Returns 7 [x41; x42; x31; x32; x33; x43; x44]);
   Ev (LicensePlate_Destroy 41) (Returns 0 []);
   Ev (LPRResult_GetPlate 31 1) (Returns 42 []);
   Ev (LicensePlate_GetText 42 (repeat x00 32) 32)
      (Returns 7 [x58; x59; x39; x39; x39; x5a; x5a]);
   Ev (LicensePlate_Destroy 42) (Returns 0 []);
   Ev (LPRResult_Destroy 31) (Returns 0 [])].

Inductive handle : Type :=
| ResultHandle (r : Z)
| PlateHandle (p : Z).

(** The create-style calls of a process run and the calls that release
    what they created. *)
Definition creates (x : handle) (ev : event) : bool :=
  match x, ev with
  | ResultHandle r, Ev (LPREngine_ReadFromMemFile _ _ _) (Returns r' _) => r' =? r
  | PlateHandle p, Ev (LPRResult_GetPlate _ _) (Returns p' _) => p' =? p
  | _, _ => false
  end.

Definition destroys (x : handle) (ev : event) : bool :=
  match x, ev with
  | ResultHandle r, Ev (LPRResult_Destroy r') _ => r' =? r
  | PlateHandle p, Ev (LicensePlate_Destroy p') _ => p' =? p
  | _, _ => false
  end.

Definition count (f : event -> bool) (tr : trace) : nat :=
  List.length (filter f tr).

(** The example library, except that reading the text of the second
    plate raises. *)
Definition raising_dll : CDLL :=
  fun h c =>
    match c with
    | LicensePlate_GetText p _ _ =>
        if p =? 42 then Raises OSError else example_dll h c
    | _ => example_dll h c
    end.

(** The history left by [read_from_mem] on engine 21 for a two-byte
    image, answered with result handle 31. *)
Definition after_read : trace :=
  [Ev (LPREngine_ReadFromMemFile (VInt 21) [xff; xd8] 2) (Returns 31 [])].

(** One round of the loop of [Result._load] that completes: the plate
    handle obtained, what the text call reported and wrote, and what the
    three foreign calls returned besides. *)
Record plate_step : Type := {
  step_index : Z;
  step_plate : Z;
  step_plate_out : list byte;
  step_writen : Z;
  step_text_out : list byte;
  step_destroy_ret : Z;
  step_destroy_out : list byte
}.

Definition step_events (self : Result.t) (s : plate_step) : list event :=
  let data := repeat x00 (Z.to_nat (Lib.BUF_SIZE (Result.lib self))) in
  [Ev (LPRResult_GetPlate (Result.obj self) (step_index s))
      (Returns (step_plate s) (step_plate_out s));
   Ev (LicensePlate_GetText (step_plate s) data (Lib.BUF_SIZE (Result.lib self)))
      (Returns (step_writen s) (step_text_out s));
   Ev (LicensePlate_Destroy (step_plate s))
      (Returns (step_destroy_ret s) (step_destroy_out s))].

Definition step_text (self : Result.t) (s : plate_step) : string :=
  str (Lib.text_bytes (repeat x00 (Z.to_nat (Lib.BUF_SIZE (Result.lib self))))
         (step_text_out s) (step_writen s)).

Definition is_result_destroy (ev : event) : bool :=
  match ev with
  | Ev (LPRResult_Destroy _) _ => true
  | _ => false
  end.

(** The plate handles a trace obtained from LPRResult_GetPlate and the
    plate handles it handed to LicensePlate_Destroy, each in call order. *)
Definition plates_obtained (tr : trace) : list Z :=
  flat_map (fun ev =>
              match ev with
              | Ev (LPRResult_GetPlate _ _) (Returns p _) => [p]
              | _ => []
              end) tr.

Definition plates_destroyed (tr : trace) : list Z :=
  flat_map (fun ev =>
              match ev with
              | Ev (LicensePlate_Destroy p) _ => [p]
              | _ => []
              end) tr.

Definition is_engine_destroy (ev : event) : bool :=
  match ev with
  | Ev (LPREngine_Destroy _) _ => true
  | _ => false
  end.

(** A byte that [repr] writes as itself inside single quotes: printable
    ASCII other than the single quote and the backslash. *)
Definition plain_byte (c : byte) : bool :=
  (0x20 <=? Byte.to_N c)%N && (Byte.to_N c <? 0x7f)%N
  && negb (Byte.eqb c x27) && negb (Byte.eqb c x5c).

(** The example library, except that destroying a parameter handle
    raises. *)
Definition params_destroy_raising_dll : CDLL :=
  fun h c =>
    match c with
    | LPRParams_Destroy _ => Raises OSError
    | _ => example_dll h c
    end.

(** A body for an engine scope that checks the licence and fails. *)
Definition failing_body (eng : ImageEngine.t) : M bool :=
  ImageEngine.is_licensed eng ;;; raise ValueError.

(** The engine that entering [ImageEngine(lib)] over the example library
    yields. *)
Definition entered_example_engine : ImageEngine.t :=
  {| ImageEngine.lib := Lib.__init__ example_dll 32;
     ImageEngine.params :=
       Some {| EngineParams.lib := Lib.__init__ example_dll 32;
               EngineParams.obj := Some 11 |};
     ImageEngine.obj := Some 21 |}.

(** * Properties *)

(** ** Marshalling of byte strings *)

Lemma len_nonneg {A} (l : list A) : 0 <= len l.
Proof. unfold len. lia. Qed.

Lemma len_repeat {A} (x : A) (n : Z) : 0 <= n -> len (repeat x (Z.to_nat n)) = n.
Proof. intros Hn. unfold len. rewrite repeat_length. lia. Qed.

Lemma overlay_same_length (src buf : list byte) :
  List.length src = List.length buf -> ct.overlay src buf = src.
Proof.
  intros Hlen. unfold ct.overlay.
  rewrite Hlen, skipn_all, app_nil_r, <- Hlen.
  apply firstn_all.
Qed.

Lemma overlay_length (src buf : list byte) :
  List.length (ct.overlay src buf) = List.length buf.
Proof.
  unfold ct.overlay. rewrite length_firstn, length_app, length_skipn. lia.
Qed.

(** [create_string_buffer(b, len(b))] is an array of exactly [len(b)]
    bytes holding [b], with no terminator added. *)
Lemma create_string_buffer_exact (b : list byte) :
  ct.create_string_buffer (VBytes b) (Some (len b)) = inr b.
Proof.
  unfold ct.create_string_buffer, ct.c_char_array.
  destruct (Z.ltb_spec (len b) 0) as [Hneg | _].
  - pose proof (len_nonneg b). lia.
  - unfold ct.set_value. rewrite len_repeat by apply len_nonneg.
    rewrite Z.ltb_irrefl. f_equal.
    apply overlay_same_length. rewrite repeat_length.
    unfold len. lia.
Qed.

(** C8: for every engine handle and image byte sequence, read_from_mem
    makes exactly one foreign call, LPREngine_ReadFromMemFile, whose buffer
    argument has exactly len(bytes) bytes and the content of the input, and
    whose length argument is len(bytes); its result is what the call
    returns. *)
Theorem read_from_mem_passes_exact_copy
  (self : Lib.t) (engine_obj : Z) (image : list byte) (h : trace) :
  exists data size o,
    Lib.read_from_mem self (VInt engine_obj) (VBytes image) h
    = (match o with Returns z _ => inr z | Raises e => inl e end,
       h ++ [Ev (LPREngine_ReadFromMemFile (VInt engine_obj) data size) o])
    /\ o = Lib.lib self h (LPREngine_ReadFromMemFile (VInt engine_obj) data size)
    /\ data = image
    /\ len data = len image
    /\ size = len image.
Proof.
  exists image, (len image).
  exists (Lib.lib self h (LPREngine_ReadFromMemFile (VInt engine_obj) image (len image))).
  repeat split.
  unfold Lib.read_from_mem, bind, lift, bytes; cbn [bytearray].
  rewrite create_string_buffer_exact.
  unfold foreign.
  destruct (Lib.lib self h _) as [z out | e]; reflexivity.
Qed.

(** ** Licence check and activation *)

(** C5: for an opened engine and every integer the native
    LPREngine_IsLicensed call returns, is_licensed makes that one call on
    the engine handle and returns a boolean, without raising, that is true
    exactly when the integer is 0. *)
Theorem is_licensed_true_iff_zero
  (self : ImageEngine.t) (engine : Z) (h : trace) (z : Z) (out : list byte) :
  ImageEngine.obj self = Some engine ->
  Lib.lib (ImageEngine.lib self) h (LPREngine_IsLicensed engine) = Returns z out ->
  exists b : bool,
    ImageEngine.is_licensed self h
    = (inr b, h ++ [Ev (LPREngine_IsLicensed engine) (Returns z out)])
    /\ (b = true <-> z = 0)
    /\ (b = false <-> z <> 0).
Proof.
  intros Hobj Hnative.
  exists (z =? 0). split.
  - unfold ImageEngine.is_licensed, Lib.engine_licensed, bind, getattr, foreign, ret.
    rewrite Hobj. cbn iota beta. rewrite Hnative. reflexivity.
  - destruct (Z.eqb_spec z 0) as [Hz | Hz]; split; split; intros; congruence.
Qed.

(** An engine with handle 21 whose licence check answers -3. *)
Lemma is_licensed_true_iff_zero_witness :
  exists b : bool,
    ImageEngine.is_licensed
      {| ImageEngine.lib := Lib.__init__ (constant_dll (-3)) 32;
         ImageEngine.params := None; ImageEngine.obj := Some 21 |} []
    = (inr b, [] ++ [Ev (LPREngine_IsLicensed 21) (Returns (-3) [])])
    /\ (b = true <-> -3 = 0)
    /\ (b = false <-> -3 <> 0).
Proof.
  apply (is_licensed_true_iff_zero
           {| ImageEngine.lib := Lib.__init__ (constant_dll (-3)) 32;
              ImageEngine.params := None; ImageEngine.obj := Some 21 |}
           21 [] (-3) []); reflexivity.
Defined.

(** What [activate_online] does, by whether the key can be encoded. *)
Lemma activate_online_run (self : Lib.t) (key : pystr) (h : trace) :
  Lib.activate_online self key h
  = match encode key with
    | inl e => (inl e, h)
    | inr data =>
        match Lib.lib self h (LPREngine_ActivateLicenseOnline data) with
        | Returns z out =>
            (inr z, h ++ [Ev (LPREngine_ActivateLicenseOnline data) (Returns z out)])
        | Raises e =>
            (inl e, h ++ [Ev (LPREngine_ActivateLicenseOnline data) (Raises e)])
        end
    end.
Proof.
  unfold Lib.activate_online, bind, lift, bytes.
  destruct (encode key) as [e | data]; [reflexivity |].
  cbn [bytearray]. rewrite create_string_buffer_exact.
  unfold foreign.
  destruct (Lib.lib self h _) as [z out | e]; reflexivity.
Qed.

(** C6: for every key string, activate returns true exactly when the
    native LPREngine_ActivateLicenseOnline call returned 0, and the one
    buffer handed to that call holds exactly the UTF-8 encoding of the key
    (a key that has no encoding raises before any call is made). *)
Theorem activate_true_iff_zero (self : ImageEngine.t) (key : pystr) (h : trace) :
  (fst (ImageEngine.activate self key h) = inr true <->
   exists data out,
     encode key = inr data /\
     snd (ImageEngine.activate self key h)
     = h ++ [Ev (LPREngine_ActivateLicenseOnline data) (Returns 0 out)])
  /\ (forall data,
        encode key = inr data ->
        snd (ImageEngine.activate self key h)
        = h ++ [Ev (LPREngine_ActivateLicenseOnline data)
                   (Lib.lib (ImageEngine.lib self) h
                      (LPREngine_ActivateLicenseOnline data))])
  /\ (forall e,
        encode key = inl e -> ImageEngine.activate self key h = (inl e, h)).
Proof.
  unfold ImageEngine.activate, bind. rewrite activate_online_run.
  destruct (encode key) as [e | data] eqn:Henc.
  - repeat split; try discriminate.
    + intros (d & out & Hd & _). discriminate.
    + intros e' He'. congruence.
  - destruct (Lib.lib (ImageEngine.lib self) h _) as [z out | e] eqn:Hnat; cbn.
    + repeat split; try discriminate.
      * intros Hres. exists data, out. split; [reflexivity |].
        destruct (Z.eqb_spec z 0) as [-> | Hz]; [reflexivity | discriminate].
      * intros (d & out' & Hd & Htr).
        apply app_inv_head in Htr. injection Htr as _ Hz _. subst z.
        reflexivity.
      * intros d Hd. injection Hd as <-. rewrite Hnat. reflexivity.
    + repeat split; try discriminate.
      * intros (d & out' & Hd & Htr).
        apply app_inv_head in Htr. discriminate.
      * intros d Hd. injection Hd as <-. rewrite Hnat. reflexivity.
Qed.

(** ** Plate text extraction *)

Lemma first_zero_le_length (buf : list byte) :
  (first_zero buf <= List.length buf)%nat.
Proof.
  induction buf as [| c rest IH]; cbn; [lia |].
  destruct (Byte.eqb c x00); lia.
Qed.

Lemma first_zero_is_zero (buf : list byte) :
  (first_zero buf < List.length buf)%nat ->
  nth_error buf (first_zero buf) = Some x00.
Proof.
  induction buf as [| c rest IH]; cbn; [lia |].
  destruct (Byte.eqb c x00) eqn:Hc; intros Hlt.
  - apply Byte.byte_dec_bl in Hc. subst c. reflexivity.
  - cbn. apply IH. lia.
Qed.

Lemma before_first_zero_nonzero (buf : list byte) (i : nat) :
  (i < first_zero buf)%nat -> nth_error buf i <> Some x00.
Proof.
  revert i. induction buf as [| c rest IH]; cbn; intros i Hi; [lia |].
  destruct (Byte.eqb c x00) eqn:Hc; [lia |].
  destruct i as [| i]; cbn.
  - intros Heq. injection Heq as ->. discriminate.
  - apply IH. lia.
Qed.

(** [.value] is the part of the array before its first zero byte. *)
Lemma value_firstn (buf : list byte) :
  ct.value buf = firstn (first_zero buf) buf.
Proof.
  induction buf as [| c rest IH]; cbn; [reflexivity |].
  destruct (Byte.eqb c x00); cbn; congruence.
Qed.

Lemma value_length (buf : list byte) :
  List.length (ct.value buf) = first_zero buf.
Proof.
  rewrite value_firstn, length_firstn.
  pose proof (first_zero_le_length buf). lia.
Qed.

Lemma slice_to_firstn (b : list byte) (stop : Z) :
  exists n, (n <= List.length b)%nat /\ slice_to b stop = firstn n b
            /\ (0 <= stop -> n = Nat.min (Z.to_nat stop) (List.length b)).
Proof.
  unfold slice_to, len.
  destruct (Z.ltb_spec stop 0) as [Hneg | Hpos].
  - exists (Z.to_nat (Z.max 0 (stop + Z.of_nat (List.length b)))).
    repeat split; lia.
  - exists (Z.to_nat (Z.min stop (Z.of_nat (List.length b)))).
    repeat split; lia.
Qed.

(** The bytes handed to [str] are an initial part of the scratch buffer
    that ends before its first zero byte. *)
Lemma text_bytes_firstn (data out : list byte) (writen : Z) :
  exists n,
    (n <= first_zero (ct.overlay out data))%nat
    /\ Lib.text_bytes data out writen = firstn n (ct.overlay out data)
    /\ (0 <= writen ->
        n = Nat.min (Z.to_nat writen) (first_zero (ct.overlay out data))).
Proof.
  unfold Lib.text_bytes.
  destruct (slice_to_firstn (ct.value (ct.overlay out data)) writen)
    as (n & Hn & Hslice & Hmin).
  rewrite value_length in Hn, Hmin.
  exists n. split; [exact Hn |]. split; [| exact Hmin].
  rewrite Hslice, value_firstn, firstn_firstn.
  f_equal. lia.
Qed.

(** What [get_plate_text] does for a buffer size that is not negative. *)
Lemma get_plate_text_run (self : Lib.t) (plate_obj : Z) (h : trace) :
  0 <= Lib.BUF_SIZE self ->
  Lib.get_plate_text self plate_obj h
  = let data := repeat x00 (Z.to_nat (Lib.BUF_SIZE self)) in
    let c := LicensePlate_GetText plate_obj data (Lib.BUF_SIZE self) in
    match Lib.lib self h c with
    | Returns writen out =>
        (inr (str (Lib.text_bytes data out writen)),
         h ++ [Ev c (Returns writen out)])
    | Raises e => (inl e, h ++ [Ev c (Raises e)])
    end.
Proof.
  intros Hsize.
  unfold Lib.get_plate_text, bind, lift; cbn [ct.create_string_buffer].
  unfold ct.c_char_array.
  destruct (Z.ltb_spec (Lib.BUF_SIZE self) 0) as [Hneg | _]; [lia |].
  unfold foreign. cbn zeta.
  destruct (Lib.lib self h _) as [writen out | e]; reflexivity.
Qed.

(** A negative buffer size is refused before any foreign call. *)
Lemma get_plate_text_negative_size (self : Lib.t) (plate_obj : Z) (h : trace) :
  Lib.BUF_SIZE self < 0 ->
  Lib.get_plate_text self plate_obj h = (inl ValueError, h).
Proof.
  intros Hsize.
  unfold Lib.get_plate_text, bind, lift; cbn [ct.create_string_buffer].
  unfold ct.c_char_array.
  destruct (Z.ltb_spec (Lib.BUF_SIZE self) 0) as [_ | Hpos]; [reflexivity | lia].
Qed.

Lemma firstn_before_first_zero (buf : list byte) (n : nat) :
  (n <= first_zero buf)%nat -> ~ In x00 (firstn n buf).
Proof.
  revert n. induction buf as [| c rest IH]; intros n Hn.
  - rewrite firstn_nil. intros [].
  - destruct n as [| n]; [intros [] |].
    cbn in Hn |- *. destruct (Byte.eqb c x00) eqn:Hc; [lia |].
    intros [Heq | Hin].
    + subst c. discriminate.
    + apply (IH n); [lia | exact Hin].
Qed.

(** C9: whenever get_plate_text returns, the string it returns is the
    rendering of the first n bytes of the scratch buffer as the native call
    left it, where n does not exceed the index of the buffer's first zero
    byte, whatever written length the call reported: neither that zero
    byte nor any byte after it is among them. *)
Theorem get_plate_text_excludes_first_zero
  (self : Lib.t) (plate_obj : Z) (h h' : trace) (s : string) :
  Lib.get_plate_text self plate_obj h = (inr s, h') ->
  exists data writen out n,
    h' = h ++ [Ev (LicensePlate_GetText plate_obj data (Lib.BUF_SIZE self))
                  (Returns writen out)]
    /\ s = str (firstn n (ct.overlay out data))
    /\ (n <= first_zero (ct.overlay out data))%nat
    /\ ~ In x00 (firstn n (ct.overlay out data))
    /\ (forall i, (i < n)%nat -> nth_error (ct.overlay out data) i <> Some x00).
Proof.
  intros Hrun.
  destruct (Z.ltb_spec (Lib.BUF_SIZE self) 0) as [Hneg | Hsize].
  { rewrite get_plate_text_negative_size in Hrun by exact Hneg. discriminate. }
  rewrite get_plate_text_run in Hrun by exact Hsize. cbn zeta in Hrun.
  destruct (Lib.lib self h _) as [writen out | e]; [| discriminate].
  injection Hrun as <- <-.
  destruct (text_bytes_firstn (repeat x00 (Z.to_nat (Lib.BUF_SIZE self))) out writen)
    as (n & Hn & Hbytes & _).
  exists (repeat x00 (Z.to_nat (Lib.BUF_SIZE self))), writen, out, n.
  split; [reflexivity |]. split; [rewrite Hbytes; reflexivity |].
  split; [exact Hn |]. split.
  - apply firstn_before_first_zero, Hn.
  - intros i Hi. apply before_first_zero_nonzero. lia.
Qed.

(** An 8-byte buffer receiving A, B, 0, C, D with a reported length of
    5. *)
Lemma get_plate_text_excludes_first_zero_witness :
  exists data writen out n,
    [Ev (LicensePlate_GetText 41 (repeat x00 8) 8)
        (Returns 5 [x41; x42; x00; x43; x44])]
    = [] ++ [Ev (LicensePlate_GetText 41 data
                   (Lib.BUF_SIZE (Lib.__init__ (text_dll 5 [x41; x42; x00; x43; x44]) 8)))
                (Returns writen out)]
    /\ "b'AB'"%string = str (firstn n (ct.overlay out data))
    /\ (n <= first_zero (ct.overlay out data))%nat
    /\ ~ In x00 (firstn n (ct.overlay out data))
    /\ (forall i, (i < n)%nat -> nth_error (ct.overlay out data) i <> Some x00).
Proof.
  apply (get_plate_text_excludes_first_zero
           (Lib.__init__ (text_dll 5 [x41; x42; x00; x43; x44]) 8) 41 []).
  reflexivity.
Defined.

(** With an 8-byte buffer into which the native call writes A, B, 0, C,
    D and for which it reports a written length of 5, get_plate_text
    returns the rendering of the two bytes A, B, which are not the first 5
    bytes of the buffer, and the string differs from those 5 bytes
    decoded. *)
Lemma get_plate_text_not_first_written_bytes :
  Lib.get_plate_text (Lib.__init__ (text_dll 5 [x41; x42; x00; x43; x44]) 8) 41 []
  = (inr (str [x41; x42]),
     [Ev (LicensePlate_GetText 41 (repeat x00 8) 8)
         (Returns 5 [x41; x42; x00; x43; x44])])
  /\ [x41; x42]
     <> firstn 5 (ct.overlay [x41; x42; x00; x43; x44] (repeat x00 8))
  /\ str [x41; x42]
     <> claimed_plate_text (ct.overlay [x41; x42; x00; x43; x44] (repeat x00 8)) 5.
Proof.
  split; [reflexivity |]. split; vm_compute; discriminate.
Qed.

(** X20: with a buffer size that is not negative, get_plate_text
    hands the native call a zero-filled scratch buffer of exactly BUF_SIZE
    bytes together with BUF_SIZE, and when the call reports a written
    length that is not negative, the bytes rendered into the returned
    string are exactly the first min(written length, k) bytes of the
    buffer, k being the index of its first zero byte (its size when there
    is none): the first written-length bytes whenever these hold no zero
    byte, and never more than the written length. *)
Theorem get_plate_text_written_prefix
  (self : Lib.t) (plate_obj : Z) (h : trace) (writen : Z) (out : list byte) :
  0 <= Lib.BUF_SIZE self ->
  Lib.lib self h
    (LicensePlate_GetText plate_obj (repeat x00 (Z.to_nat (Lib.BUF_SIZE self)))
       (Lib.BUF_SIZE self))
  = Returns writen out ->
  0 <= writen ->
  exists data buf kept,
    data = repeat x00 (Z.to_nat (Lib.BUF_SIZE self))
    /\ len data = Lib.BUF_SIZE self
    /\ buf = ct.overlay out data
    /\ len buf = Lib.BUF_SIZE self
    /\ Lib.get_plate_text self plate_obj h
       = (inr (str kept),
          h ++ [Ev (LicensePlate_GetText plate_obj data (Lib.BUF_SIZE self))
                   (Returns writen out)])
    /\ kept = firstn (Nat.min (Z.to_nat writen) (first_zero buf)) buf
    /\ ((Z.to_nat writen <= first_zero buf)%nat ->
        kept = firstn (Z.to_nat writen) buf)
    /\ len kept <= writen.
Proof.
  intros Hsize Hnative Hwriten.
  set (data := repeat x00 (Z.to_nat (Lib.BUF_SIZE self))) in *.
  destruct (text_bytes_firstn data out writen) as (n & Hn & Hbytes & Hmin).
  specialize (Hmin Hwriten).
  exists data, (ct.overlay out data), (Lib.text_bytes data out writen).
  assert (Hlen : len data = Lib.BUF_SIZE self)
    by (apply len_repeat; exact Hsize).
  split; [reflexivity |]. split; [exact Hlen |]. split; [reflexivity |].
  split; [unfold len in *; rewrite overlay_length; exact Hlen |].
  split.
  { rewrite get_plate_text_run by exact Hsize. cbn zeta. fold data.
    rewrite Hnative. reflexivity. }
  split; [rewrite Hbytes, Hmin; reflexivity |].
  split.
  - intros Hle. rewrite Hbytes, Hmin. f_equal. lia.
  - rewrite Hbytes. unfold len. rewrite length_firstn. lia.
Qed.

(** A 32-byte buffer receiving AB123CD with a reported length of 7. *)
Lemma get_plate_text_written_prefix_witness :
  exists data buf kept,
    data = repeat x00 (Z.to_nat 32)
    /\ len data = 32
    /\ buf = ct.overlay [x41; x42; x31; x32; x33; x43; x44] data
    /\ len buf = 32
    /\ Lib.get_plate_text
         (Lib.__init__ (text_dll 7 [x41; x42; x31; x32; x33; x43; x44]) 32) 41 []
       = (inr (str kept),
          [] ++ [Ev (LicensePlate_GetText 41 data 32)
                    (Returns 7 [x41; x42; x31; x32; x33; x43; x44])])
    /\ kept = firstn (Nat.min (Z.to_nat 7) (first_zero buf)) buf
    /\ ((Z.to_nat 7 <= first_zero buf)%nat -> kept = firstn (Z.to_nat 7) buf)
    /\ len kept <= 7.
Proof.
  apply (get_plate_text_written_prefix
           (Lib.__init__ (text_dll 7 [x41; x42; x31; x32; x33; x43; x44]) 32)
           41 [] 7 [x41; x42; x31; x32; x33; x43; x44]).
  - cbn. lia.
  - reflexivity.
  - lia.
Defined.

(** C3 (code defect): get_plate_text does not return the written bytes
    decoded as text.  With a 32-byte buffer into which the native call
    writes AB123CD and for which it reports a written length of 7, the
    first 7 bytes of the buffer decoded are the text AB123CD, while
    get_plate_text returns the ten characters b'AB123CD': line 125 applies
    str to a bytes object, which gives its literal form. *)
Theorem get_plate_text_returns_bytes_literal :
  Lib.get_plate_text
    (Lib.__init__ (text_dll 7 [x41; x42; x31; x32; x33; x43; x44]) 32) 41 []
  = (inr "b'AB123CD'"%string,
     [Ev (LicensePlate_GetText 41 (repeat x00 32) 32)
         (Returns 7 [x41; x42; x31; x32; x33; x43; x44])])
  /\ claimed_plate_text
       (ct.overlay [x41; x42; x31; x32; x33; x43; x44] (repeat x00 32)) 7
     = "AB123CD"%string
  /\ "b'AB123CD'"%string
     <> claimed_plate_text
          (ct.overlay [x41; x42; x31; x32; x33; x43; x44] (repeat x00 32)) 7.
Proof.
  split; [reflexivity |]. split; [reflexivity |]. vm_compute. discriminate.
Qed.

(** ** Re-entering a parameter scope *)

Lemma params_enter_run (self : EngineParams.t) (h : trace) :
  EngineParams.__enter__ self h
  = match Lib.lib (EngineParams.lib self) h LPRParams_Create with
    | Returns p out =>
        (inr ({| EngineParams.lib := EngineParams.lib self;
                 EngineParams.obj := Some p |}, p),
         h ++ [Ev LPRParams_Create (Returns p out)])
    | Raises e => (inl e, h ++ [Ev LPRParams_Create (Raises e)])
    end.
Proof.
  unfold EngineParams.__enter__, Lib.create_params, bind, foreign, ret.
  destruct (Lib.lib (EngineParams.lib self) h LPRParams_Create); reflexivity.
Qed.

Lemma params_exit_run (self : EngineParams.t) (h : trace) :
  EngineParams.__exit__ self h
  = match EngineParams.obj self with
    | None => (inl AttributeError, h)
    | Some p =>
        match Lib.lib (EngineParams.lib self) h (LPRParams_Destroy p) with
        | Returns z out => (inr tt, h ++ [Ev (LPRParams_Destroy p) (Returns z out)])
        | Raises e => (inl e, h ++ [Ev (LPRParams_Destroy p) (Raises e)])
        end
    end.
Proof.
  unfold EngineParams.__exit__, Lib.destroy_params, bind, getattr, foreign, ret, raise.
  destruct (EngineParams.obj self) as [p |]; [| reflexivity].
  destruct (Lib.lib (EngineParams.lib self) h (LPRParams_Destroy p)); reflexivity.
Qed.

Lemma drive_extends (ops : list scope_op) :
  forall self h, exists made, snd (drive ops self h) = h ++ made.
Proof.
  induction ops as [| [|] rest IH]; intros self h; cbn [drive].
  - exists []. symmetry. apply app_nil_r.
  - rewrite params_enter_run.
    destruct (Lib.lib (EngineParams.lib self) h LPRParams_Create) as [p out | e];
      match goal with
      | |- context [drive rest ?s (h ++ [?ev])] =>
          destruct (IH s (h ++ [ev])) as (made & Hmade);
          exists (ev :: made); rewrite Hmade, <- app_assoc; reflexivity
      end.
  - rewrite params_exit_run.
    destruct (EngineParams.obj self) as [p |]; [| apply IH].
    destruct (Lib.lib (EngineParams.lib self) h (LPRParams_Destroy p)) as [z out | e];
      match goal with
      | |- context [drive rest ?s (h ++ [?ev])] =>
          destruct (IH s (h ++ [ev])) as (made & Hmade);
          exists (ev :: made); rewrite Hmade, <- app_assoc; reflexivity
      end.
Qed.

Lemma drive_after_event (rest : list scope_op) (self : EngineParams.t)
    (h : trace) (ev : event) (made : list event) :
  snd (drive rest self (h ++ [ev])) = h ++ made ->
  exists made',
    made = ev :: made'
    /\ snd (drive rest self (h ++ [ev])) = (h ++ [ev]) ++ made'.
Proof.
  intros Hrun.
  destruct (drive_extends rest self (h ++ [ev])) as (made' & Hmade').
  exists made'. split; [| exact Hmade'].
  rewrite Hmade', <- app_assoc in Hrun.
  apply app_inv_head in Hrun. symmetry. exact Hrun.
Qed.

(** A handle that is not the stored one and is not created again is never
    handed to LPRParams_Destroy. *)
Lemma drive_spares_unstored (p1 : Z) (ops : list scope_op) :
  forall self h made,
    EngineParams.obj self <> Some p1 ->
    snd (drive ops self h) = h ++ made ->
    existsb (creates_params p1) made = false ->
    existsb (destroys_params p1) made = false.
Proof.
  induction ops as [| [|] rest IH]; intros self h made Hobj Hrun Hfresh;
    cbn [drive] in Hrun.
  - cbn in Hrun. rewrite <- (app_nil_r h) in Hrun at 1.
    apply app_inv_head in Hrun. subst made. reflexivity.
  - rewrite params_enter_run in Hrun.
    destruct (Lib.lib (EngineParams.lib self) h LPRParams_Create) as [p out | e];
      apply drive_after_event in Hrun; destruct Hrun as (made' & -> & Hstep);
      cbn in Hfresh |- *.
    + apply orb_false_iff in Hfresh. destruct Hfresh as [Hp Hfresh].
      refine (IH _ _ made' _ Hstep Hfresh).
      cbn. intros [= ->]. rewrite Z.eqb_refl in Hp. discriminate.
    + exact (IH _ _ made' Hobj Hstep Hfresh).
  - rewrite params_exit_run in Hrun.
    destruct (EngineParams.obj self) as [p |] eqn:Hp.
    2:{ apply (IH self h made); [congruence | exact Hrun | exact Hfresh]. }
    assert (Hne : (p =? p1) = false) by (apply Z.eqb_neq; congruence).
    destruct (Lib.lib (EngineParams.lib self) h (LPRParams_Destroy p)) as [z out | e];
      apply drive_after_event in Hrun; destruct Hrun as (made' & -> & Hstep);
      cbn in Hfresh |- *; rewrite Hne; cbn;
      refine (IH _ _ made' _ Hstep Hfresh); congruence.
Qed.

Lemma drive_enter (rest : list scope_op) (self : EngineParams.t) (h : trace) :
  drive (Enter :: rest) self h
  = match Lib.lib (EngineParams.lib self) h LPRParams_Create with
    | Returns p out =>
        drive rest {| EngineParams.lib := EngineParams.lib self;
                      EngineParams.obj := Some p |}
          (h ++ [Ev LPRParams_Create (Returns p out)])
    | Raises e => drive rest self (h ++ [Ev LPRParams_Create (Raises e)])
    end.
Proof.
  cbn [drive]. rewrite params_enter_run.
  destruct (Lib.lib (EngineParams.lib self) h LPRParams_Create); reflexivity.
Qed.

(** C10 as stated fails when the library hands out the same handle value
    again: over the example library, where every LPRParams_Create returns
    11, entering an object twice and leaving it once passes 11, the handle
    of the first entry, to LPRParams_Destroy. *)
Lemma params_reentry_destroys_repeated_handle :
  snd (drive [Enter; Enter; Exit]
         (EngineParams.__init__ (Lib.__init__ example_dll 32)) [])
  = [Ev LPRParams_Create (Returns 11 []);
     Ev LPRParams_Create (Returns 11 []);
     Ev (LPRParams_Destroy 11) (Returns 0 [])]
  /\ existsb (destroys_params 11)
       (skipn 2 (snd (drive [Enter; Enter; Exit]
                        (EngineParams.__init__ (Lib.__init__ example_dll 32)) [])))
     = true.
Proof. split; reflexivity. Qed.

(** C10, amended: every entry of an EngineParams scope makes one
    LPRParams_Create call and, when the library returns a handle, stores
    it in place of whatever was stored; every exit hands exactly the
    stored handle to LPRParams_Destroy, once.  So when an object is
    entered twice in a row and the library returned a different handle the
    second time, the second handle is the one stored, and the handle of
    the first entry is not handed to LPRParams_Destroy by any later
    entries and exits of that object, as long as the library does not
    return it from a later create. *)
Theorem params_reentry_never_destroys_first
  (self : EngineParams.t) (h : trace) (ops : list scope_op) :
  EngineParams.__enter__ self h
  = match Lib.lib (EngineParams.lib self) h LPRParams_Create with
    | Returns p out =>
        (inr ({| EngineParams.lib := EngineParams.lib self;
                 EngineParams.obj := Some p |}, p),
         h ++ [Ev LPRParams_Create (Returns p out)])
    | Raises e => (inl e, h ++ [Ev LPRParams_Create (Raises e)])
    end
  /\ (forall p,
        EngineParams.obj self = Some p ->
        EngineParams.__exit__ self h
        = match Lib.lib (EngineParams.lib self) h (LPRParams_Destroy p) with
          | Returns z o =>
              (inr tt, h ++ [Ev (LPRParams_Destroy p) (Returns z o)])
          | Raises e => (inl e, h ++ [Ev (LPRParams_Destroy p) (Raises e)])
          end)
  /\ (forall p1 out1 p2 out2,
        Lib.lib (EngineParams.lib self) h LPRParams_Create = Returns p1 out1 ->
        Lib.lib (EngineParams.lib self)
          (h ++ [Ev LPRParams_Create (Returns p1 out1)]) LPRParams_Create
        = Returns p2 out2 ->
        p2 <> p1 ->
        EngineParams.obj (fst (drive [Enter; Enter] self h)) = Some p2
        /\ (exists made,
              snd (drive (Enter :: Enter :: ops) self h)
              = h ++ Ev LPRParams_Create (Returns p1 out1)
                     :: Ev LPRParams_Create (Returns p2 out2) :: made)
        /\ (forall made,
              snd (drive (Enter :: Enter :: ops) self h)
              = h ++ Ev LPRParams_Create (Returns p1 out1)
                     :: Ev LPRParams_Create (Returns p2 out2) :: made ->
              existsb (creates_params p1) made = false ->
              existsb (destroys_params p1) made = false)).
Proof.
  split; [apply params_enter_run | split].
  - intros p Hp. rewrite params_exit_run, Hp. reflexivity.
  - intros p1 out1 p2 out2 H1 H2 Hne.
    assert (Hrun : forall ops',
               drive (Enter :: Enter :: ops') self h
               = drive ops'
                   {| EngineParams.lib := EngineParams.lib self;
                      EngineParams.obj := Some p2 |}
                   ((h ++ [Ev LPRParams_Create (Returns p1 out1)])
                    ++ [Ev LPRParams_Create (Returns p2 out2)])).
    { intros ops'. rewrite drive_enter, H1, drive_enter.
      cbn [EngineParams.lib]. rewrite H2. reflexivity. }
    split; [rewrite Hrun; reflexivity |]. split.
    + rewrite Hrun.
      destruct (drive_extends ops
                  {| EngineParams.lib := EngineParams.lib self;
                     EngineParams.obj := Some p2 |}
                  ((h ++ [Ev LPRParams_Create (Returns p1 out1)])
                   ++ [Ev LPRParams_Create (Returns p2 out2)]))
        as (made & Hmade).
      exists made. rewrite Hmade, <- !app_assoc. reflexivity.
    + intros made Hmade Hfresh. rewrite Hrun in Hmade.
      refine (drive_spares_unstored p1 ops
                {| EngineParams.lib := EngineParams.lib self;
                   EngineParams.obj := Some p2 |}
                ((h ++ [Ev LPRParams_Create (Returns p1 out1)])
                 ++ [Ev LPRParams_Create (Returns p2 out2)])
                made _ _ Hfresh).
      * cbn. intros [= Heq]. exact (Hne Heq).
      * rewrite Hmade, <- !app_assoc. reflexivity.
Qed.

(** Enter, enter, exit, exit, enter, exit on one object over the counting
    library: the first entry stores handle 100, the second stores 101, and
    100 is never destroyed while 101 is destroyed twice. *)
Lemma params_reentry_never_destroys_first_witness :
  EngineParams.__enter__ (EngineParams.__init__ (Lib.__init__ counter_dll 32)) []
  = (inr ({| EngineParams.lib := Lib.__init__ counter_dll 32;
             EngineParams.obj := Some 100 |}, 100),
     [Ev LPRParams_Create (Returns 100 [])])
  /\ EngineParams.obj
       (fst (drive [Enter; Enter]
               (EngineParams.__init__ (Lib.__init__ counter_dll 32)) []))
     = Some 101
  /\ existsb (destroys_params 100)
       [Ev (LPRParams_Destroy 101) (Returns 102 []);
        Ev (LPRParams_Destroy 101) (Returns 103 []);
        Ev LPRParams_Create (Returns 104 []);
        Ev (LPRParams_Destroy 104) (Returns 105 [])]
     = false.
Proof.
  destruct (params_reentry_never_destroys_first
              (EngineParams.__init__ (Lib.__init__ counter_dll 32))
              [] [Exit; Exit; Enter; Exit])
    as (Henter & _ & Hthird).
  destruct (Hthird 100 [] 101 [] eq_refl eq_refl ltac:(lia))
    as (Hstored & _ & Hspared).
  split; [rewrite Henter; reflexivity |].
  split; [exact Hstored |].
  apply Hspared; reflexivity.
Defined.

(** ** Handle lifetimes in the Result scope *)

(** The Plate scope around [describe], for a buffer size that is not
    negative: when the text call raises, the scope is left without the
    LicensePlate_Destroy call. *)
Lemma plate_scope_run (lib : Lib.t) (p : Z) (h : trace) :
  0 <= Lib.BUF_SIZE lib ->
  with_ (Plate.__init__ p lib) (fun pl => Plate.describe pl) h
  = let data := repeat x00 (Z.to_nat (Lib.BUF_SIZE lib)) in
    let gt := LicensePlate_GetText p data (Lib.BUF_SIZE lib) in
    match Lib.lib lib h gt with
    | Raises e => (inl e, h ++ [Ev gt (Raises e)])
    | Returns w out =>
        let s := str (Lib.text_bytes data out w) in
        let h1 := h ++ [Ev gt (Returns w out)] in
        match Lib.lib lib h1 (LicensePlate_Destroy p) with
        | Raises e => (inl e, h1 ++ [Ev (LicensePlate_Destroy p) (Raises e)])
        | Returns z o =>
            (inr ({| Plate.obj := p; Plate.lib := lib; Plate.text := Some s |}, s),
             h1 ++ [Ev (LicensePlate_Destroy p) (Returns z o)])
        end
    end.
Proof.
  intros Hsize.
  unfold with_; cbn [cm_enter cm_exit Plate.manager].
  unfold Plate.__enter__, Plate._load, bind.
  cbn [Plate.__init__ Plate.lib Plate.obj].
  rewrite get_plate_text_run by exact Hsize. cbn zeta.
  destruct (Lib.lib lib h _) as [w out | e]; [| reflexivity].
  unfold ret, Plate.describe, getattr; cbn [Plate.text].
  unfold ret, Plate.__exit__, Lib.destroy_plate, bind, foreign;
    cbn [Plate.lib Plate.obj].
  destruct (Lib.lib lib _ (LicensePlate_Destroy p)) as [z o | e]; reflexivity.
Qed.

Lemma plate_scope_negative_size (lib : Lib.t) (p : Z) (h : trace) :
  Lib.BUF_SIZE lib < 0 ->
  with_ (Plate.__init__ p lib) (fun pl => Plate.describe pl) h
  = (inl ValueError, h).
Proof.
  intros Hsize.
  unfold with_; cbn [cm_enter cm_exit Plate.manager].
  unfold Plate.__enter__, Plate._load, bind.
  cbn [Plate.__init__ Plate.lib Plate.obj].
  rewrite get_plate_text_negative_size by exact Hsize. reflexivity.
Qed.

(** A loop that completes went through one full round per index, in
    order: get the plate, read its text, destroy it. *)
Lemma load_loop_success (self : Result.t) (indices : list Z) :
  forall acc h ps h',
    Result.load_loop self indices acc h = (inr ps, h') ->
    exists steps,
      map step_index steps = indices
      /\ h' = h ++ flat_map (step_events self) steps
      /\ ps = acc ++ map (step_text self) steps.
Proof.
  induction indices as [| i rest IH]; intros acc h ps h' Hrun.
  - cbn in Hrun. injection Hrun as <- <-.
    exists []. cbn. rewrite !app_nil_r. repeat split.
  - cbn [Result.load_loop] in Hrun.
    unfold bind at 1 in Hrun.
    unfold Lib.get_plate, bind, foreign, ret in Hrun.
    destruct (Lib.lib (Result.lib self) h _) as [p o1 | e]; [| discriminate].
    cbn [fst] in Hrun.
    destruct (Z.ltb_spec (Lib.BUF_SIZE (Result.lib self)) 0) as [Hneg | Hsize].
    { rewrite plate_scope_negative_size in Hrun by exact Hneg. discriminate. }
    rewrite plate_scope_run in Hrun by exact Hsize. cbn zeta in Hrun.
    destruct (Lib.lib (Result.lib self) _ (LicensePlate_GetText _ _ _))
      as [w out | e]; [| discriminate].
    destruct (Lib.lib (Result.lib self) _ (LicensePlate_Destroy p))
      as [z o3 | e]; [| discriminate].
    cbn [snd] in Hrun.
    destruct (IH _ _ _ _ Hrun) as (steps & Hidx & Htrace & Hps).
    exists ({| step_index := i; step_plate := p; step_plate_out := o1;
               step_writen := w; step_text_out := out;
               step_destroy_ret := z; step_destroy_out := o3 |} :: steps).
    split; [cbn; congruence |]. split.
    + rewrite Htrace. cbn [flat_map step_events]. cbn.
      rewrite <- !app_assoc. reflexivity.
    + rewrite Hps. cbn. rewrite <- app_assoc. reflexivity.
Qed.

Lemma len_range (n : Z) : len (range n) = Z.max 0 n.
Proof. unfold len, range. rewrite length_map, length_seq. lia. Qed.

(** X1: a Result scope that completes: the count was read, every index of
    [range(count)] went through a full round in order, and the result
    handle was destroyed last; the description holds the count and one
    rendered text per round. *)
Lemma result_scope_success (lib : Lib.t) (r : Z) (h h' : trace)
    (res : Result.t) (d : description) :
  with_ (Result.__init__ r lib) (fun res => Result.describe res) h
  = (inr (res, d), h') ->
  exists n out0 steps z outd,
    h' = h ++ Ev (LPRResult_GetPlatesCount r) (Returns n out0)
              :: flat_map (step_events (Result.__init__ r lib)) steps
              ++ [Ev (LPRResult_Destroy r) (Returns z outd)]
    /\ map step_index steps = range n
    /\ found d = n
    /\ plates d = map (step_text (Result.__init__ r lib)) steps
    /\ len (plates d) = Z.max 0 n.
Proof.
  intros Hrun.
  unfold with_ in Hrun; cbn [cm_enter cm_exit Result.manager] in Hrun.
  unfold Result.__enter__, Result._load in Hrun.
  unfold bind at 1 2 in Hrun.
  unfold Lib.get_plates_count, bind, foreign, ret in Hrun.
  cbn [Result.__init__ Result.lib Result.obj] in Hrun.
  destruct (Lib.lib lib h _) as [n out0 | e]; [| discriminate].
  cbn [fst] in Hrun.
  fold (Result.__init__ r lib) in Hrun.
  destruct (Result.load_loop (Result.__init__ r lib) (range n) [] _)
    as [[e | ps] h2] eqn:Hloop; [discriminate |].
  apply load_loop_success in Hloop.
  destruct Hloop as (steps & Hidx & Htrace & Hps).
  unfold Result.describe, bind, getattr, ret in Hrun.
  cbn [Result.plates_count Result.plates] in Hrun.
  unfold Result.__exit__, Lib.destroy_result, bind, foreign, ret in Hrun.
  cbn [Result.lib Result.obj] in Hrun.
  destruct (Lib.lib lib h2 _) as [z outd | e]; [| discriminate].
  injection Hrun as _ <- <-. subst h2 ps.
  exists n, out0, steps, z, outd. cbn [found plates app].
  split; [rewrite <- !app_assoc; reflexivity |].
  split; [exact Hidx |]. split; [reflexivity |]. split; [reflexivity |].
  rewrite <- len_range, <- Hidx. unfold len. rewrite !length_map. reflexivity.
Qed.

Lemma load_loop_no_result_destroy (self : Result.t) (indices : list Z) :
  forall acc h,
  exists made,
    snd (Result.load_loop self indices acc h) = h ++ made
    /\ existsb is_result_destroy made = false.
Proof.
  induction indices as [| i rest IH]; intros acc h.
  - exists []. cbn. rewrite app_nil_r. split; reflexivity.
  - cbn [Result.load_loop]. unfold bind at 1.
    unfold Lib.get_plate, bind, foreign, ret.
    destruct (Lib.lib (Result.lib self) h _) as [p o1 | e].
    2:{ eexists [_]. split; reflexivity. }
    cbn [fst].
    destruct (Z.ltb_spec (Lib.BUF_SIZE (Result.lib self)) 0) as [Hneg | Hsize].
    { rewrite plate_scope_negative_size by exact Hneg.
      eexists [_]. split; reflexivity. }
    rewrite plate_scope_run by exact Hsize. cbn zeta.
    destruct (Lib.lib (Result.lib self) _ (LicensePlate_GetText _ _ _))
      as [w out | e].
    2:{ eexists [_; _]. cbn [snd]. rewrite <- app_assoc. split; reflexivity. }
    destruct (Lib.lib (Result.lib self) _ (LicensePlate_Destroy p))
      as [z o3 | e].
    2:{ eexists [_; _; _]. cbn [snd]. rewrite <- !app_assoc. split; reflexivity. }
    cbn [snd].
    match goal with
    | |- context [Result.load_loop self rest ?a ?t] =>
        destruct (IH a t) as (made & Hmade & Hnone)
    end.
    eexists (_ :: _ :: _ :: made). rewrite Hmade, <- !app_assoc.
    split; [reflexivity | exact Hnone].
Qed.

(** X2: whenever loading raises inside [Result.__enter__], the Result scope
    ends with that exception and has made no LPRResult_Destroy call. *)
Lemma result_scope_no_destroy_when_load_raises (lib : Lib.t) (r : Z)
    (h h' : trace) (e : exn) :
  Result.__enter__ (Result.__init__ r lib) h = (inl e, h') ->
  with_ (Result.__init__ r lib) (fun res => Result.describe res) h = (inl e, h')
  /\ exists made, h' = h ++ made /\ existsb is_result_destroy made = false.
Proof.
  intros Henter. split.
  - unfold with_; cbn [cm_enter Result.manager]. rewrite Henter. reflexivity.
  - unfold Result.__enter__, Result._load in Henter.
    unfold bind at 1 2 in Henter.
    unfold Lib.get_plates_count, bind, foreign, ret in Henter.
    cbn [Result.__init__ Result.lib Result.obj] in Henter.
    fold (Result.__init__ r lib) in Henter.
    destruct (Lib.lib lib h _) as [n out0 | e0].
    2:{ injection Henter as _ <-. eexists [_]. split; reflexivity. }
    cbn [fst] in Henter.
    match type of Henter with
    | context [Result.load_loop ?s ?ix ?a ?t] =>
        destruct (load_loop_no_result_destroy s ix a t) as (made & Hmade & Hnone);
        destruct (Result.load_loop s ix a t) as [[e1 | ps] h2]
    end; [| discriminate].
    injection Henter as _ <-. cbn [snd] in Hmade. subst h2.
    eexists (_ :: made). rewrite <- app_assoc.
    split; [reflexivity | exact Hnone].
Qed.

(** The Result and Plate scopes load in __enter__, and an exception
    raised there leaves the with statement before __exit__ is due (a
    result handle as [process] would hold it once given the engine handle;
    [process] as written does not get that far).  With a library whose
    text call raises for the second of two
    plates, the Result scope on result handle 31 raises after plate 41 was
    created and destroyed once, while plate 42 and result 31 were created
    and never destroyed.  With the example library and a buffer size of
    -1 the text extraction of the first plate raises ValueError, and
    plate 41 and result 31 are never destroyed. *)
Theorem result_scope_leaks_when_load_raises :
  with_ (Result.__init__ 31 (Lib.__init__ raising_dll 32))
    (fun res => Result.describe res) after_read
  = (inl OSError,
     after_read ++
     [Ev (LPRResult_GetPlatesCount 31) (Returns 2 []);
      Ev (LPRResult_GetPlate 31 0) (Returns 41 []);
      Ev (LicensePlate_GetText 41 (repeat x00 32) 32)
         (Returns 7 [x41; x42; x31; x32; x33; x43; x44]);
      Ev (LicensePlate_Destroy 41) (Returns 0 []);
      Ev (LPRResult_GetPlate 31 1) (Returns 42 []);
      Ev (LicensePlate_GetText 42 (repeat x00 32) 32) (Raises OSError)])
  /\ (let tr := snd (with_ (Result.__init__ 31 (Lib.__init__ raising_dll 32))
                       (fun res => Result.describe res) after_read) in
      count (creates (PlateHandle 41)) tr = 1%nat
      /\ count (destroys (PlateHandle 41)) tr = 1%nat
      /\ count (creates (PlateHandle 42)) tr = 1%nat
      /\ count (destroys (PlateHandle 42)) tr = 0%nat
      /\ count (creates (ResultHandle 31)) tr = 1%nat
      /\ count (destroys (ResultHandle 31)) tr = 0%nat)
  /\ with_ (Result.__init__ 31 (Lib.__init__ example_dll (-1)))
       (fun res => Result.describe res) after_read
     = (inl ValueError,
        after_read ++
        [Ev (LPRResult_GetPlatesCount 31) (Returns 2 []);
         Ev (LPRResult_GetPlate 31 0) (Returns 41 [])])
  /\ (let tr := snd (with_ (Result.__init__ 31 (Lib.__init__ example_dll (-1)))
                       (fun res => Result.describe res) after_read) in
      count (creates (PlateHandle 41)) tr = 1%nat
      /\ count (destroys (PlateHandle 41)) tr = 0%nat
      /\ count (creates (ResultHandle 31)) tr = 1%nat
      /\ count (destroys (ResultHandle 31)) tr = 0%nat).
Proof.
  split; [reflexivity |]. split; [repeat split |].
  split; [reflexivity |]. repeat split.
Qed.

(** ** The process entry point *)

(** C1 (code defect): process does not reach the native library.  Line
    234 calls read_from_mem with the image bytes as its only argument,
    leaving out the engine handle, so for every engine, every image and
    every history the call raises TypeError while its arguments are bound:
    no LPREngine_ReadFromMemFile call is made, no Result scope is entered
    and no description is returned. *)
Theorem process_raises_TypeError
  (self : ImageEngine.t) (image : list byte) (h : trace) :
  ImageEngine.process self image h = (inl TypeError, h).
Proof. reflexivity. Qed.


(** C4 (code defect): on the example of the specification (buffer size
    32, two plates AB123CD and XY999ZZ) process does not return
    found 2 with the two texts: it raises TypeError before any foreign
    call.  The Result scope it was to open, entered on the result handle,
    does report found 2 and two plates in enumeration order, each being
    the bytes-literal rendering of the text rather than the text. *)
Theorem process_example_returns_no_description :
  ImageEngine.process example_engine [xff; xd8] [] = (inl TypeError, [])
  /\ fst (ImageEngine.process example_engine [xff; xd8] [])
     <> inr {| found := 2; plates := ["AB123CD"%string; "XY999ZZ"%string] |}
  /\ (r <- with_ (Result.__init__ 31 (ImageEngine.lib example_engine))
             (fun res => Result.describe res) ;;
      ret (snd r)) []
     = (inr {| found := 2; plates := ["b'AB123CD'"%string; "b'XY999ZZ'"%string] |},
        example_result_calls).
Proof.
  split; [reflexivity |]. split; [discriminate | reflexivity].
Qed.

(** * Further properties of the scopes *)

(** ** The Result scope *)

(** The Result scope around [describe], in terms of the count call, the
    loop and the destroy call. *)
Lemma result_scope_run (lib : Lib.t) (r : Z) (h : trace) :
  with_ (Result.__init__ r lib) (fun res => Result.describe res) h
  = match Lib.lib lib h (LPRResult_GetPlatesCount r) with
    | Raises e => (inl e, h ++ [Ev (LPRResult_GetPlatesCount r) (Raises e)])
    | Returns n out0 =>
        match Result.load_loop (Result.__init__ r lib) (range n) []
                (h ++ [Ev (LPRResult_GetPlatesCount r) (Returns n out0)]) with
        | (inl e, h2) => (inl e, h2)
        | (inr ps, h2) =>
            match Lib.lib lib h2 (LPRResult_Destroy r) with
            | Raises e => (inl e, h2 ++ [Ev (LPRResult_Destroy r) (Raises e)])
            | Returns z o =>
                (inr ({| Result.obj := r; Result.lib := lib;
                         Result.plates_count := Some n;
                         Result.plates := Some ps |},
                      {| found := n; plates := ps |}),
                 h2 ++ [Ev (LPRResult_Destroy r) (Returns z o)])
            end
        end
    end.
Proof.
  unfold with_; cbn [cm_enter cm_exit Result.manager].
  unfold Result.__enter__, Result._load.
  unfold bind at 1 2.
  unfold Lib.get_plates_count, bind, foreign, ret.
  cbn [Result.__init__ Result.lib Result.obj].
  destruct (Lib.lib lib h _) as [n out0 | e]; [| reflexivity].
  cbn [fst]. fold (Result.__init__ r lib).
  destruct (Result.load_loop (Result.__init__ r lib) (range n) [] _)
    as [[e | ps] h2]; [reflexivity |].
  unfold Result.describe, bind, getattr, ret.
  cbn [Result.plates_count Result.plates].
  unfold Result.__exit__, Lib.destroy_result, bind, foreign, ret.
  cbn [Result.lib Result.obj].
  destruct (Lib.lib lib h2 _) as [z o | e]; reflexivity.
Qed.

(** The example of the specification run through a complete Result
    scope. *)
Lemma result_scope_success_witness :
  exists n out0 steps z outd,
    example_result_calls
    = [] ++ Ev (LPRResult_GetPlatesCount 31) (Returns n out0)
            :: flat_map (step_events (Result.__init__ 31 (Lib.__init__ example_dll 32)))
                 steps
            ++ [Ev (LPRResult_Destroy 31) (Returns z outd)]
    /\ map step_index steps = range n
    /\ found {| found := 2; plates := ["b'AB123CD'"%string; "b'XY999ZZ'"%string] |} = n
    /\ plates {| found := 2; plates := ["b'AB123CD'"%string; "b'XY999ZZ'"%string] |}
       = map (step_text (Result.__init__ 31 (Lib.__init__ example_dll 32))) steps
    /\ len (plates {| found := 2;
                      plates := ["b'AB123CD'"%string; "b'XY999ZZ'"%string] |})
       = Z.max 0 n.
Proof.
  apply (result_scope_success (Lib.__init__ example_dll 32) 31 []
           example_result_calls
           {| Result.obj := 31; Result.lib := Lib.__init__ example_dll 32;
              Result.plates_count := Some 2;
              Result.plates := Some ["b'AB123CD'"%string; "b'XY999ZZ'"%string] |}
           {| found := 2; plates := ["b'AB123CD'"%string; "b'XY999ZZ'"%string] |}).
  reflexivity.
Defined.

(** The raising library of the leak example: loading stops at the text of
    the second plate. *)
Lemma result_scope_no_destroy_when_load_raises_witness :
  with_ (Result.__init__ 31 (Lib.__init__ raising_dll 32))
    (fun res => Result.describe res) after_read
  = (inl OSError,
     after_read ++
     [Ev (LPRResult_GetPlatesCount 31) (Returns 2 []);
      Ev (LPRResult_GetPlate 31 0) (Returns 41 []);
      Ev (LicensePlate_GetText 41 (repeat x00 32) 32)
         (Returns 7 [x41; x42; x31; x32; x33; x43; x44]);
      Ev (LicensePlate_Destroy 41) (Returns 0 []);
      Ev (LPRResult_GetPlate 31 1) (Returns 42 []);
      Ev (LicensePlate_GetText 42 (repeat x00 32) 32) (Raises OSError)])
  /\ exists made,
       after_read ++
       [Ev (LPRResult_GetPlatesCount 31) (Returns 2 []);
        Ev (LPRResult_GetPlate 31 0) (Returns 41 []);
        Ev (LicensePlate_GetText 41 (repeat x00 32) 32)
           (Returns 7 [x41; x42; x31; x32; x33; x43; x44]);
        Ev (LicensePlate_Destroy 41) (Returns 0 []);
        Ev (LPRResult_GetPlate 31 1) (Returns 42 []);
        Ev (LicensePlate_GetText 42 (repeat x00 32) 32) (Raises OSError)]
       = after_read ++ made
       /\ existsb is_result_destroy made = false.
Proof.
  apply (result_scope_no_destroy_when_load_raises
           (Lib.__init__ raising_dll 32) 31 after_read).
  reflexivity.
Defined.

Lemma range_nonpositive (n : Z) : n <= 0 -> range n = [].
Proof.
  intros Hn. unfold range.
  replace (Z.to_nat n) with 0%nat by lia. reflexivity.
Qed.

(** X3: when the count call returns 0 or a negative number, the Result
    scope asks for no plate: it makes the count call and the destroy call
    and nothing else, and when the destroy call returns, the description
    holds the count as it was reported, negative or not, and no plates. *)
Theorem result_scope_without_plates
  (lib : Lib.t) (r : Z) (h : trace) (n : Z) (out0 : list byte) :
  Lib.lib lib h (LPRResult_GetPlatesCount r) = Returns n out0 ->
  n <= 0 ->
  exists o,
    snd (with_ (Result.__init__ r lib) (fun res => Result.describe res) h)
    = h ++ [Ev (LPRResult_GetPlatesCount r) (Returns n out0);
            Ev (LPRResult_Destroy r) o]
    /\ (forall z outd,
          o = Returns z outd ->
          exists res,
            fst (with_ (Result.__init__ r lib) (fun res => Result.describe res) h)
            = inr (res, {| found := n; plates := [] |}))
    /\ (forall e,
          o = Raises e ->
          fst (with_ (Result.__init__ r lib) (fun res => Result.describe res) h)
          = inl e).
Proof.
  intros Hcount Hn.
  rewrite result_scope_run, Hcount, (range_nonpositive n Hn).
  cbn [Result.load_loop]. unfold ret.
  destruct (Lib.lib lib _ (LPRResult_Destroy r)) as [z o | e] eqn:Hd;
    eexists; cbn [fst snd]; (split; [rewrite <- app_assoc; reflexivity |]);
    split; intros; try discriminate.
  - eexists. reflexivity.
  - congruence.
Qed.

(** A library that answers every call with -1: the count is -1. *)
Lemma result_scope_without_plates_witness :
  exists o,
    snd (with_ (Result.__init__ 31 (Lib.__init__ (constant_dll (-1)) 32))
           (fun res => Result.describe res) [])
    = [] ++ [Ev (LPRResult_GetPlatesCount 31) (Returns (-1) []);
             Ev (LPRResult_Destroy 31) o]
    /\ (forall z outd,
          o = Returns z outd ->
          exists res,
            fst (with_ (Result.__init__ 31 (Lib.__init__ (constant_dll (-1)) 32))
                   (fun res => Result.describe res) [])
            = inr (res, {| found := -1; plates := [] |}))
    /\ (forall e,
          o = Raises e ->
          fst (with_ (Result.__init__ 31 (Lib.__init__ (constant_dll (-1)) 32))
                 (fun res => Result.describe res) [])
          = inl e).
Proof.
  apply (result_scope_without_plates
           (Lib.__init__ (constant_dll (-1)) 32) 31 [] (-1) []).
  - reflexivity.
  - lia.
Defined.

(** However the loop of [_load] ends, the plate handles it destroyed
    are, in order, the plate handles it obtained, except possibly the last
    one obtained; when it completes, they are all of them. *)
Lemma load_loop_outstanding (self : Result.t) (indices : list Z) :
  forall acc h,
  exists made rest,
    snd (Result.load_loop self indices acc h) = h ++ made
    /\ plates_obtained made = plates_destroyed made ++ rest
    /\ (List.length rest <= 1)%nat
    /\ (forall ps,
          fst (Result.load_loop self indices acc h) = inr ps -> rest = []).
Proof.
  induction indices as [| i rest_ix IH]; intros acc h.
  - exists [], []. cbn. rewrite app_nil_r. repeat split. lia.
  - cbn [Result.load_loop]. unfold bind at 1.
    unfold Lib.get_plate, bind, foreign, ret.
    destruct (Lib.lib (Result.lib self) h _) as [p o1 | e].
    2:{ eexists [_], []. cbn [fst snd]. split; [reflexivity |].
        split; [reflexivity |]. split; [cbn; lia | discriminate]. }
    cbn [fst].
    destruct (Z.ltb_spec (Lib.BUF_SIZE (Result.lib self)) 0) as [Hneg | Hsize].
    { rewrite plate_scope_negative_size by exact Hneg.
      eexists [_], [p]. cbn [fst snd]. split; [reflexivity |].
      split; [reflexivity |]. split; [cbn; lia | discriminate]. }
    rewrite plate_scope_run by exact Hsize. cbn zeta.
    destruct (Lib.lib (Result.lib self) _ (LicensePlate_GetText _ _ _))
      as [w out | e].
    2:{ eexists [_; _], [p]. cbn [fst snd]. rewrite <- app_assoc.
        split; [reflexivity |].
        split; [reflexivity |]. split; [cbn; lia | discriminate]. }
    destruct (Lib.lib (Result.lib self) _ (LicensePlate_Destroy p))
      as [z o3 | e].
    2:{ eexists [_; _; _], []. cbn [fst snd]. rewrite <- !app_assoc.
        split; [reflexivity |].
        split; [reflexivity |]. split; [cbn; lia | discriminate]. }
    cbn [snd].
    match goal with
    | |- context [Result.load_loop self rest_ix ?a ?t] =>
        destruct (IH a t) as (made & rest & Hmade & Hplates & Hlen & Hdone)
    end.
    eexists (_ :: _ :: _ :: made), rest.
    split; [rewrite Hmade, <- !app_assoc; reflexivity |].
    split.
    { unfold plates_obtained, plates_destroyed in Hplates |- *.
      cbn [flat_map app]. rewrite Hplates. reflexivity. }
    split; [exact Hlen | exact Hdone].
Qed.

Lemma plates_obtained_app (t1 t2 : trace) :
  plates_obtained (t1 ++ t2) = plates_obtained t1 ++ plates_obtained t2.
Proof. apply flat_map_app. Qed.

Lemma plates_destroyed_app (t1 t2 : trace) :
  plates_destroyed (t1 ++ t2) = plates_destroyed t1 ++ plates_destroyed t2.
Proof. apply flat_map_app. Qed.

(** X4: however a Result scope is left, by return or by an exception at
    any point, the plate handles it handed to LicensePlate_Destroy are, in
    call order, exactly the plate handles it obtained from
    LPRResult_GetPlate, except possibly the last one obtained (the plate
    being loaded when the exception was raised); when the scope completes,
    every plate handle obtained was destroyed and LPRResult_Destroy was
    called. *)
Theorem result_scope_outstanding_plates (lib : Lib.t) (r : Z) (h : trace) :
  exists made rest,
    snd (with_ (Result.__init__ r lib) (fun res => Result.describe res) h)
    = h ++ made
    /\ plates_obtained made = plates_destroyed made ++ rest
    /\ (List.length rest <= 1)%nat
    /\ (forall res d,
          fst (with_ (Result.__init__ r lib) (fun res => Result.describe res) h)
          = inr (res, d) ->
          rest = [] /\ existsb is_result_destroy made = true).
Proof.
  rewrite result_scope_run.
  destruct (Lib.lib lib h _) as [n out0 | e].
  2:{ eexists [_], []. cbn [fst snd]. split; [reflexivity |].
      split; [reflexivity |]. split; [cbn; lia | discriminate]. }
  match goal with
  | |- context [Result.load_loop ?s ?ix ?a ?t] =>
      destruct (load_loop_outstanding s ix a t)
        as (made & rest & Hmade & Hplates & Hlen & Hdone);
      destruct (Result.load_loop s ix a t) as [[e | ps] h2]
  end; cbn [fst snd] in *; subst h2.
  - exists (Ev (LPRResult_GetPlatesCount r) (Returns n out0) :: made), rest.
    rewrite <- app_assoc. split; [reflexivity |].
    split; [exact Hplates |]. split; [exact Hlen | discriminate].
  - specialize (Hdone ps eq_refl). subst rest.
    rewrite app_nil_r in Hplates.
    assert (Hall : forall evd,
               plates_obtained
                 (Ev (LPRResult_GetPlatesCount r) (Returns n out0)
                    :: made ++ [Ev (LPRResult_Destroy r) evd])
               = plates_destroyed
                   (Ev (LPRResult_GetPlatesCount r) (Returns n out0)
                      :: made ++ [Ev (LPRResult_Destroy r) evd]) ++ []).
    { intros evd.
      change (Ev (LPRResult_GetPlatesCount r) (Returns n out0)
                :: made ++ [Ev (LPRResult_Destroy r) evd])
        with ([Ev (LPRResult_GetPlatesCount r) (Returns n out0)]
                ++ made ++ [Ev (LPRResult_Destroy r) evd]).
      rewrite !plates_obtained_app, !plates_destroyed_app, Hplates.
      cbn. rewrite !app_nil_r. reflexivity. }
    destruct (Lib.lib lib _ (LPRResult_Destroy r)) as [z o | e];
      eexists (Ev (LPRResult_GetPlatesCount r) (Returns n out0) :: made ++ [_]), [];
      cbn [fst snd]; rewrite <- !app_assoc;
      (split; [reflexivity |]);
      (split; [apply Hall |]);
      (split; [cbn; lia |]);
      intros res d Hfst; try discriminate.
    split; [reflexivity |].
    cbn [existsb]. rewrite existsb_app. cbn. apply orb_true_r.
Qed.

(** ** The Plate scope and the text it loads *)

(** X5: in a Plate scope (buffer size not negative) the plate handle is
    destroyed exactly when its text was read: if the text call raises, the
    scope ends with that exception after this one call and
    LicensePlate_Destroy is not called; if it returns, the next and last
    call is LicensePlate_Destroy on the same handle, and the scope yields
    the rendered text, or the exception of the destroy call if that
    raises. *)
Theorem plate_scope_destroys_after_text (lib : Lib.t) (p : Z) (h : trace) :
  0 <= Lib.BUF_SIZE lib ->
  (forall e,
      Lib.lib lib h
        (LicensePlate_GetText p (repeat x00 (Z.to_nat (Lib.BUF_SIZE lib)))
           (Lib.BUF_SIZE lib)) = Raises e ->
      with_ (Plate.__init__ p lib) (fun pl => Plate.describe pl) h
      = (inl e,
         h ++ [Ev (LicensePlate_GetText p
                     (repeat x00 (Z.to_nat (Lib.BUF_SIZE lib))) (Lib.BUF_SIZE lib))
                  (Raises e)]))
  /\ (forall w out,
        Lib.lib lib h
          (LicensePlate_GetText p (repeat x00 (Z.to_nat (Lib.BUF_SIZE lib)))
             (Lib.BUF_SIZE lib)) = Returns w out ->
        exists o,
          snd (with_ (Plate.__init__ p lib) (fun pl => Plate.describe pl) h)
          = h ++ [Ev (LicensePlate_GetText p
                        (repeat x00 (Z.to_nat (Lib.BUF_SIZE lib)))
                        (Lib.BUF_SIZE lib))
                     (Returns w out);
                  Ev (LicensePlate_Destroy p) o]
          /\ (forall z o',
                o = Returns z o' ->
                exists pl,
                  fst (with_ (Plate.__init__ p lib) (fun pl => Plate.describe pl) h)
                  = inr (pl,
                         str (Lib.text_bytes
                                (repeat x00 (Z.to_nat (Lib.BUF_SIZE lib))) out w)))
          /\ (forall e,
                o = Raises e ->
                fst (with_ (Plate.__init__ p lib) (fun pl => Plate.describe pl) h)
                = inl e)).
Proof.
  intros Hsize. rewrite plate_scope_run by exact Hsize. cbn zeta. split.
  - intros e He. rewrite He. reflexivity.
  - intros w out Hw. rewrite Hw.
    destruct (Lib.lib lib _ (LicensePlate_Destroy p)) as [z o' | e];
      eexists; cbn [fst snd]; (split; [rewrite <- app_assoc; reflexivity |]);
      split; intros; try discriminate.
    + eexists. reflexivity.
    + congruence.
Qed.

(** The plate of the text example, and the second plate of the raising
    library. *)
Lemma plate_scope_destroys_after_text_witness :
  with_ (Plate.__init__ 42 (Lib.__init__ raising_dll 32))
    (fun pl => Plate.describe pl) []
  = (inl OSError,
     [] ++ [Ev (LicensePlate_GetText 42 (repeat x00 (Z.to_nat 32)) 32)
               (Raises OSError)]).
Proof.
  apply (proj1 (plate_scope_destroys_after_text
                  (Lib.__init__ raising_dll 32) 42 [] ltac:(cbn; lia))).
  reflexivity.
Defined.

(** X6: the constructor of Lib keeps a negative buffer size as it is, and
    the failure shows at the first text extraction: get_plate_text raises
    ValueError before any foreign call, and so does a Plate scope, which
    then does not destroy its handle. *)
Theorem negative_buffer_size_raises_at_text
  (dll : CDLL) (buffer_size : Z) (p : Z) (h : trace) :
  buffer_size < 0 ->
  Lib.BUF_SIZE (Lib.__init__ dll buffer_size) = buffer_size
  /\ Lib.get_plate_text (Lib.__init__ dll buffer_size) p h = (inl ValueError, h)
  /\ with_ (Plate.__init__ p (Lib.__init__ dll buffer_size))
       (fun pl => Plate.describe pl) h
     = (inl ValueError, h).
Proof.
  intros Hneg. split; [reflexivity |]. split.
  - apply get_plate_text_negative_size. exact Hneg.
  - apply plate_scope_negative_size. exact Hneg.
Qed.

Lemma negative_buffer_size_raises_at_text_witness :
  Lib.BUF_SIZE (Lib.__init__ example_dll (-1)) = -1
  /\ Lib.get_plate_text (Lib.__init__ example_dll (-1)) 41 [] = (inl ValueError, [])
  /\ with_ (Plate.__init__ 41 (Lib.__init__ example_dll (-1)))
       (fun pl => Plate.describe pl) []
     = (inl ValueError, []).
Proof.
  apply (negative_buffer_size_raises_at_text example_dll (-1) 41 []). lia.
Defined.

Lemma string_of_list_byte_app (a b : list byte) :
  string_of_list_byte (a ++ b)
  = (string_of_list_byte a ++ string_of_list_byte b)%string.
Proof.
  unfold string_of_list_byte. rewrite map_app.
  induction (map ascii_of_byte a) as [| c rest IH]; cbn; [reflexivity |].
  rewrite IH. reflexivity.
Qed.

Lemma string_of_list_byte_length (b : list byte) :
  String.length (string_of_list_byte b) = List.length b.
Proof.
  unfold string_of_list_byte.
  induction b as [| c rest IH]; cbn; [reflexivity | rewrite IH; reflexivity].
Qed.

Lemma repr_byte_plain (c : byte) :
  plain_byte c = true -> repr_byte x27 c = [c].
Proof. destruct c; intros H; try discriminate H; reflexivity. Qed.

Lemma plain_not_quote (b : list byte) :
  forallb plain_byte b = true -> existsb (Byte.eqb x27) b = false.
Proof.
  induction b as [| c rest IH]; cbn; [reflexivity |].
  intros H. apply andb_true_iff in H. destruct H as [Hc Hrest].
  rewrite (IH Hrest), orb_false_r.
  destruct c; try discriminate Hc; reflexivity.
Qed.

Lemma flat_map_repr_plain (b : list byte) :
  forallb plain_byte b = true -> flat_map (repr_byte x27) b = b.
Proof.
  induction b as [| c rest IH]; cbn [flat_map forallb]; [reflexivity |].
  intros H. apply andb_true_iff in H. destruct H as [Hc Hrest].
  rewrite (repr_byte_plain c Hc), (IH Hrest). reflexivity.
Qed.

(** The rendering of bytes that are all printable and neither quote nor
    backslash: the bytes between [b'] and [']. *)
Lemma str_plain (b : list byte) :
  forallb plain_byte b = true ->
  str b = ("b'" ++ string_of_list_byte b ++ "'")%string.
Proof.
  intros H. unfold str, repr_bytes.
  rewrite (plain_not_quote b H). cbn [andb].
  rewrite (flat_map_repr_plain b H).
  change (x62 :: x27 :: b ++ [x27]) with ([x62; x27] ++ b ++ [x27]).
  rewrite !string_of_list_byte_app. reflexivity.
Qed.

(** X7: when the bytes taken from the buffer are all printable ASCII
    other than the single quote and the backslash, as the characters of a
    plate number are, get_plate_text returns them as text wrapped in the
    two characters b' in front and the character ' behind. *)
Theorem get_plate_text_wraps_printable
  (self : Lib.t) (plate_obj : Z) (h : trace) (writen : Z) (out : list byte) :
  0 <= Lib.BUF_SIZE self ->
  Lib.lib self h
    (LicensePlate_GetText plate_obj (repeat x00 (Z.to_nat (Lib.BUF_SIZE self)))
       (Lib.BUF_SIZE self))
  = Returns writen out ->
  forallb plain_byte
    (Lib.text_bytes (repeat x00 (Z.to_nat (Lib.BUF_SIZE self))) out writen) = true ->
  fst (Lib.get_plate_text self plate_obj h)
  = inr ("b'" ++ string_of_list_byte
                   (Lib.text_bytes (repeat x00 (Z.to_nat (Lib.BUF_SIZE self)))
                      out writen)
              ++ "'")%string.
Proof.
  intros Hsize Hnative Hplain.
  rewrite get_plate_text_run by exact Hsize. cbn zeta.
  rewrite Hnative. cbn [fst]. rewrite (str_plain _ Hplain). reflexivity.
Qed.

Lemma get_plate_text_wraps_printable_witness :
  fst (Lib.get_plate_text
         (Lib.__init__ (text_dll 7 [x41; x42; x31; x32; x33; x43; x44]) 32) 41 [])
  = inr ("b'" ++ string_of_list_byte
                   (Lib.text_bytes
                      (repeat x00
                         (Z.to_nat
                            (Lib.BUF_SIZE
                               (Lib.__init__
                                  (text_dll 7 [x41; x42; x31; x32; x33; x43; x44])
                                  32))))
                      [x41; x42; x31; x32; x33; x43; x44] 7)
              ++ "'")%string.
Proof.
  apply (get_plate_text_wraps_printable
           (Lib.__init__ (text_dll 7 [x41; x42; x31; x32; x33; x43; x44]) 32)
           41 [] 7 [x41; x42; x31; x32; x33; x43; x44]).
  - cbn. lia.
  - reflexivity.
  - reflexivity.
Defined.

Lemma repr_byte_nonempty (quote c : byte) :
  (1 <= List.length (repr_byte quote c))%nat.
Proof.
  unfold repr_byte.
  repeat match goal with
         | |- context [if ?b then _ else _] => destruct b
         end; cbn; lia.
Qed.

Lemma flat_map_repr_length (quote : byte) (b : list byte) :
  (List.length b <= List.length (flat_map (repr_byte quote) b))%nat.
Proof.
  induction b as [| c rest IH]; cbn [flat_map]; [cbn; lia |].
  rewrite length_app. pose proof (repr_byte_nonempty quote c). cbn. lia.
Qed.

Lemma str_length (b : list byte) :
  (List.length b + 3 <= String.length (str b))%nat.
Proof.
  unfold str, repr_bytes. rewrite string_of_list_byte_length.
  cbn [List.length]. rewrite length_app. cbn [List.length].
  match goal with
  | |- context [flat_map (repr_byte ?q) b] =>
      pose proof (flat_map_repr_length q b)
  end.
  lia.
Qed.

Lemma str_head (b : list byte) : exists rest, str b = String "b" rest.
Proof. unfold str, repr_bytes. eexists. reflexivity. Qed.

(** X8: whatever the native call writes and reports, a string returned
    by get_plate_text is the rendering of the bytes taken from the buffer
    and never those bytes as text: it begins with the letter b and is at
    least three characters longer than the number of bytes taken, so it is
    never empty either. *)
Theorem get_plate_text_never_plain_text
  (self : Lib.t) (plate_obj : Z) (h h' : trace) (s : string) :
  Lib.get_plate_text self plate_obj h = (inr s, h') ->
  exists data writen out rest,
    h' = h ++ [Ev (LicensePlate_GetText plate_obj data (Lib.BUF_SIZE self))
                  (Returns writen out)]
    /\ s = str (Lib.text_bytes data out writen)
    /\ s = String "b" rest
    /\ (List.length (Lib.text_bytes data out writen) + 3 <= String.length s)%nat
    /\ s <> string_of_list_byte (Lib.text_bytes data out writen).
Proof.
  intros Hrun.
  destruct (Z.ltb_spec (Lib.BUF_SIZE self) 0) as [Hneg | Hsize].
  { rewrite get_plate_text_negative_size in Hrun by exact Hneg. discriminate. }
  rewrite get_plate_text_run in Hrun by exact Hsize. cbn zeta in Hrun.
  destruct (Lib.lib self h _) as [writen out | e]; [| discriminate].
  injection Hrun as <- <-.
  destruct (str_head (Lib.text_bytes
                        (repeat x00 (Z.to_nat (Lib.BUF_SIZE self))) out writen))
    as (rest & Hrest).
  exists (repeat x00 (Z.to_nat (Lib.BUF_SIZE self))), writen, out, rest.
  split; [reflexivity |]. split; [reflexivity |]. split; [exact Hrest |].
  split; [apply str_length |].
  intros Heq. apply (f_equal String.length) in Heq.
  rewrite string_of_list_byte_length in Heq.
  pose proof (str_length (Lib.text_bytes
                            (repeat x00 (Z.to_nat (Lib.BUF_SIZE self))) out writen)).
  lia.
Qed.

(** A plate whose text call writes nothing and reports 0. *)
Lemma get_plate_text_never_plain_text_witness :
  exists data writen out rest,
    [Ev (LicensePlate_GetText 41 (repeat x00 8) 8) (Returns 0 [])]
    = [] ++ [Ev (LicensePlate_GetText 41 data
                   (Lib.BUF_SIZE (Lib.__init__ (constant_dll 0) 8)))
                (Returns writen out)]
    /\ "b''"%string = str (Lib.text_bytes data out writen)
    /\ "b''"%string = String "b" rest
    /\ (List.length (Lib.text_bytes data out writen) + 3
        <= String.length "b''")%nat
    /\ "b''"%string <> string_of_list_byte (Lib.text_bytes data out writen).
Proof.
  apply (get_plate_text_never_plain_text (Lib.__init__ (constant_dll 0) 8) 41 []).
  reflexivity.
Defined.

(** X9: a negative written length is not taken as an error: it counts
    from the end of the text in the buffer, so get_plate_text returns the
    rendering of the buffer content before its first zero byte with the
    last -writen bytes cut off (nothing when there are fewer). *)
Theorem get_plate_text_negative_length
  (self : Lib.t) (plate_obj : Z) (h : trace) (writen : Z) (out : list byte) :
  0 <= Lib.BUF_SIZE self ->
  Lib.lib self h
    (LicensePlate_GetText plate_obj (repeat x00 (Z.to_nat (Lib.BUF_SIZE self)))
       (Lib.BUF_SIZE self))
  = Returns writen out ->
  writen < 0 ->
  fst (Lib.get_plate_text self plate_obj h)
  = inr (str (firstn
                (first_zero
                   (ct.overlay out (repeat x00 (Z.to_nat (Lib.BUF_SIZE self))))
                 - Z.to_nat (- writen))
                (ct.overlay out (repeat x00 (Z.to_nat (Lib.BUF_SIZE self)))))).
Proof.
  intros Hsize Hnative Hneg.
  rewrite get_plate_text_run by exact Hsize. cbn zeta.
  rewrite Hnative. cbn [fst]. do 2 f_equal.
  unfold Lib.text_bytes, slice_to.
  destruct (Z.ltb_spec writen 0) as [_ | Hpos]; [| lia].
  unfold len. rewrite value_length, value_firstn, firstn_firstn.
  f_equal. lia.
Qed.

Lemma get_plate_text_negative_length_witness :
  fst (Lib.get_plate_text
         (Lib.__init__ (text_dll (-1) [x41; x42; x31; x32; x33; x43; x44]) 32) 41 [])
  = inr (str (firstn
                (first_zero
                   (ct.overlay [x41; x42; x31; x32; x33; x43; x44]
                      (repeat x00
                         (Z.to_nat
                            (Lib.BUF_SIZE
                               (Lib.__init__
                                  (text_dll (-1) [x41; x42; x31; x32; x33; x43; x44])
                                  32)))))
                 - Z.to_nat (- -1))
                (ct.overlay [x41; x42; x31; x32; x33; x43; x44]
                   (repeat x00
                      (Z.to_nat
                         (Lib.BUF_SIZE
                            (Lib.__init__
                               (text_dll (-1) [x41; x42; x31; x32; x33; x43; x44])
                               32))))))).
Proof.
  apply (get_plate_text_negative_length
           (Lib.__init__ (text_dll (-1) [x41; x42; x31; x32; x33; x43; x44]) 32)
           41 [] (-1) [x41; x42; x31; x32; x33; x43; x44]).
  - cbn. lia.
  - reflexivity.
  - lia.
Defined.

Lemma value_zeros (n : nat) : ct.value (repeat x00 n) = [].
Proof. destruct n; reflexivity. Qed.

Lemma overlay_nothing (buf : list byte) : ct.overlay [] buf = buf.
Proof. unfold ct.overlay. cbn. apply firstn_all. Qed.

(** X10: when the native call writes nothing into the scratch buffer,
    get_plate_text returns the rendering of the empty byte string, the
    three characters b'', whatever written length the call reports. *)
Theorem get_plate_text_untouched_buffer
  (self : Lib.t) (plate_obj : Z) (h : trace) (writen : Z) :
  0 <= Lib.BUF_SIZE self ->
  Lib.lib self h
    (LicensePlate_GetText plate_obj (repeat x00 (Z.to_nat (Lib.BUF_SIZE self)))
       (Lib.BUF_SIZE self))
  = Returns writen [] ->
  fst (Lib.get_plate_text self plate_obj h) = inr "b''"%string.
Proof.
  intros Hsize Hnative.
  rewrite get_plate_text_run by exact Hsize. cbn zeta.
  rewrite Hnative. cbn [fst].
  unfold Lib.text_bytes, slice_to.
  rewrite overlay_nothing, value_zeros, firstn_nil. reflexivity.
Qed.

Lemma get_plate_text_untouched_buffer_witness :
  fst (Lib.get_plate_text (Lib.__init__ (constant_dll 5) 32) 41 [])
  = inr "b''"%string.
Proof.
  apply (get_plate_text_untouched_buffer (Lib.__init__ (constant_dll 5) 32) 41 [] 5).
  - cbn. lia.
  - reflexivity.
Defined.

(** ** The EngineParams scope *)

(** X11: once LPRParams_Create has returned a handle, an EngineParams
    scope runs its body on that handle and then makes exactly one more
    call, LPRParams_Destroy on the same handle, whether the body returned
    or raised; the scope yields what the body yielded unless the destroy
    call raises, whose exception then replaces it. *)
Theorem params_scope_releases_after_body {B : Type}
  (self : EngineParams.t) (body : Z -> M B) (h : trace)
  (p : Z) (out : list byte) :
  Lib.lib (EngineParams.lib self) h LPRParams_Create = Returns p out ->
  exists o,
    snd (with_ self body h)
    = snd (body p (h ++ [Ev LPRParams_Create (Returns p out)]))
      ++ [Ev (LPRParams_Destroy p) o]
    /\ (forall e, o = Raises e -> fst (with_ self body h) = inl e)
    /\ (forall z o',
          o = Returns z o' ->
          fst (with_ self body h)
          = match fst (body p (h ++ [Ev LPRParams_Create (Returns p out)])) with
            | inl e => inl e
            | inr b => inr ({| EngineParams.lib := EngineParams.lib self;
                               EngineParams.obj := Some p |}, b)
            end).
Proof.
  intros Hcreate.
  unfold with_; cbn [cm_enter cm_exit EngineParams.manager].
  rewrite params_enter_run, Hcreate.
  destruct (body p _) as [r h2]. cbn [fst snd].
  rewrite params_exit_run. cbn [EngineParams.obj EngineParams.lib].
  destruct (Lib.lib (EngineParams.lib self) h2 (LPRParams_Destroy p)) as [z o' | e];
    eexists; cbn [fst snd]; (split; [reflexivity |]);
    split; intros; try discriminate.
  - reflexivity.
  - congruence.
Qed.

(** A body that raises, over the example library. *)
Lemma params_scope_releases_after_body_witness :
  exists o,
    snd (with_ (EngineParams.__init__ (Lib.__init__ example_dll 32))
           (fun _ : Z => raise (A := bool) ValueError) [])
    = snd (raise (A := bool) ValueError ([] ++ [Ev LPRParams_Create (Returns 11 [])]))
      ++ [Ev (LPRParams_Destroy 11) o]
    /\ (forall e,
          o = Raises e ->
          fst (with_ (EngineParams.__init__ (Lib.__init__ example_dll 32))
                 (fun _ : Z => raise (A := bool) ValueError) [])
          = inl e)
    /\ (forall z o',
          o = Returns z o' ->
          fst (with_ (EngineParams.__init__ (Lib.__init__ example_dll 32))
                 (fun _ : Z => raise (A := bool) ValueError) [])
          = match fst (raise (A := bool) ValueError
                         ([] ++ [Ev LPRParams_Create (Returns 11 [])])) with
            | inl e => inl e
            | inr b =>
                inr ({| EngineParams.lib :=
                          EngineParams.lib
                            (EngineParams.__init__ (Lib.__init__ example_dll 32));
                        EngineParams.obj := Some 11 |}, b)
            end).
Proof.
  apply (params_scope_releases_after_body
           (EngineParams.__init__ (Lib.__init__ example_dll 32))
           (fun _ : Z => raise (A := bool) ValueError) [] 11 []).
  reflexivity.
Defined.



(** ** The ImageEngine scope *)

(** Entry of an engine scope, call by call. *)
Lemma engine_enter_run (self : ImageEngine.t) (h : trace) :
  ImageEngine.__enter__ self h
  = let pl := EngineParams.lib (params_used self) in
    match Lib.lib pl h LPRParams_Create with
    | Raises e => (inl e, h ++ [Ev LPRParams_Create (Raises e)])
    | Returns p out =>
        let h1 := h ++ [Ev LPRParams_Create (Returns p out)] in
        let ec := LPREngine_Create p false None in
        match Lib.lib (ImageEngine.lib self) h1 ec with
        | Raises e1 =>
            match Lib.lib pl (h1 ++ [Ev ec (Raises e1)]) (LPRParams_Destroy p) with
            | Raises e2 =>
                (inl e2, (h1 ++ [Ev ec (Raises e1)])
                         ++ [Ev (LPRParams_Destroy p) (Raises e2)])
            | Returns z o =>
                (inl e1, (h1 ++ [Ev ec (Raises e1)])
                         ++ [Ev (LPRParams_Destroy p) (Returns z o)])
            end
        | Returns engine o1 =>
            match Lib.lib pl (h1 ++ [Ev ec (Returns engine o1)])
                    (LPRParams_Destroy p) with
            | Raises e2 =>
                (inl e2, (h1 ++ [Ev ec (Returns engine o1)])
                         ++ [Ev (LPRParams_Destroy p) (Raises e2)])
            | Returns z o =>
                (inr ({| ImageEngine.lib := ImageEngine.lib self;
                         ImageEngine.params :=
                           Some {| EngineParams.lib := pl;
                                   EngineParams.obj := Some p |};
                         ImageEngine.obj := Some engine |},
                      {| ImageEngine.lib := ImageEngine.lib self;
                         ImageEngine.params :=
                           Some {| EngineParams.lib := pl;
                                   EngineParams.obj := Some p |};
                         ImageEngine.obj := Some engine |}),
                 (h1 ++ [Ev ec (Returns engine o1)])
                 ++ [Ev (LPRParams_Destroy p) (Returns z o)])
            end
        end
    end.
Proof.
  unfold ImageEngine.__enter__. fold (params_used self).
  set (ps := params_used self). cbn zeta.
  unfold bind, with_; cbn [cm_enter cm_exit EngineParams.manager].
  rewrite params_enter_run.
  destruct (Lib.lib (EngineParams.lib ps) h LPRParams_Create) as [p out | e];
    [| reflexivity].
  unfold Lib.create_engine, bind, foreign, ret.
  destruct (Lib.lib (ImageEngine.lib self) _ (LPREngine_Create p false None))
    as [engine o1 | e1];
    rewrite params_exit_run; cbn [EngineParams.obj EngineParams.lib fst snd];
    destruct (Lib.lib (EngineParams.lib ps) _ (LPRParams_Destroy p))
      as [z o | e2]; reflexivity.
Qed.

(** An entry that returns has made its three calls, all of which
    returned, and stored the engine handle. *)
Lemma engine_enter_success (self self' a : ImageEngine.t) (h h' : trace) :
  ImageEngine.__enter__ self h = (inr (self', a), h') ->
  exists p out engine o1 z o,
    h' = h ++ [Ev LPRParams_Create (Returns p out);
               Ev (LPREngine_Create p false None) (Returns engine o1);
               Ev (LPRParams_Destroy p) (Returns z o)]
    /\ a = self'
    /\ self' = {| ImageEngine.lib := ImageEngine.lib self;
                  ImageEngine.params :=
                    Some {| EngineParams.lib := EngineParams.lib (params_used self);
                            EngineParams.obj := Some p |};
                  ImageEngine.obj := Some engine |}.
Proof.
  rewrite engine_enter_run. cbn zeta. intros Hrun.
  destruct (Lib.lib _ h LPRParams_Create) as [p out | e]; [| discriminate].
  destruct (Lib.lib (ImageEngine.lib self) _ _) as [engine o1 | e1];
    destruct (Lib.lib _ _ (LPRParams_Destroy p)) as [z o | e2];
    try discriminate.
  injection Hrun as <- <- <-.
  exists p, out, engine, o1, z, o.
  rewrite <- !app_assoc. repeat split.
Qed.

(** C7: entering an ImageEngine scope first asks the library for a
    parameter handle through the parameter scope (the caller's
    EngineParams object, or one made for the engine's library when none
    was given).  If that call raises, nothing else is called.  If it
    returns handle p, the next call creates the engine from p with video
    mode false and no callback, and the call after it, made before entry
    returns, destroys that same p, also when engine creation raised; the
    three calls are all that entry makes.  When both later calls return,
    entry returns the engine with the created engine handle stored and the
    parameter object kept. *)
Theorem engine_enter_creates_image_engine (self : ImageEngine.t) (h : trace) :
  (forall e,
      Lib.lib (EngineParams.lib (params_used self)) h LPRParams_Create = Raises e ->
      ImageEngine.__enter__ self h
      = (inl e, h ++ [Ev LPRParams_Create (Raises e)]))
  /\ (forall p out,
        Lib.lib (EngineParams.lib (params_used self)) h LPRParams_Create
        = Returns p out ->
        exists o1 o2,
          o1 = Lib.lib (ImageEngine.lib self)
                 (h ++ [Ev LPRParams_Create (Returns p out)])
                 (LPREngine_Create p false None)
          /\ o2 = Lib.lib (EngineParams.lib (params_used self))
                    ((h ++ [Ev LPRParams_Create (Returns p out)])
                     ++ [Ev (LPREngine_Create p false None) o1])
                    (LPRParams_Destroy p)
          /\ snd (ImageEngine.__enter__ self h)
             = h ++ [Ev LPRParams_Create (Returns p out);
                     Ev (LPREngine_Create p false None) o1;
                     Ev (LPRParams_Destroy p) o2]
          /\ fst (ImageEngine.__enter__ self h)
             = match o1, o2 with
               | _, Raises e2 => inl e2
               | Raises e1, Returns _ _ => inl e1
               | Returns engine _, Returns _ _ =>
                   inr ({| ImageEngine.lib := ImageEngine.lib self;
                           ImageEngine.params :=
                             Some {| EngineParams.lib :=
                                       EngineParams.lib (params_used self);
                                     EngineParams.obj := Some p |};
                           ImageEngine.obj := Some engine |},
                        {| ImageEngine.lib := ImageEngine.lib self;
                           ImageEngine.params :=
                             Some {| EngineParams.lib :=
                                       EngineParams.lib (params_used self);
                                     EngineParams.obj := Some p |};
                           ImageEngine.obj := Some engine |})
               end).
Proof.
  rewrite engine_enter_run. cbn zeta. split.
  - intros e He. rewrite He. reflexivity.
  - intros p out Hp. rewrite Hp.
    eexists _, _. split; [reflexivity |]. split; [reflexivity |].
    destruct (Lib.lib (ImageEngine.lib self) _ (LPREngine_Create p false None))
      as [engine o1 | e1];
      destruct (Lib.lib (EngineParams.lib (params_used self)) _
                  (LPRParams_Destroy p)) as [z o | e2];
      cbn [fst snd]; rewrite <- !app_assoc; split; reflexivity.
Qed.

(** Entering [ImageEngine(lib)] over the example library: parameter
    handle 11, engine handle 21. *)
Lemma engine_enter_creates_image_engine_witness :
  fst (ImageEngine.__enter__
         (ImageEngine.__init__ (Lib.__init__ example_dll 32) None) [])
  = inr (entered_example_engine, entered_example_engine)
  /\ snd (ImageEngine.__enter__
            (ImageEngine.__init__ (Lib.__init__ example_dll 32) None) [])
     = [Ev LPRParams_Create (Returns 11 []);
        Ev (LPREngine_Create 11 false None) (Returns 21 []);
        Ev (LPRParams_Destroy 11) (Returns 0 [])].
Proof.
  destruct (proj2 (engine_enter_creates_image_engine
                     (ImageEngine.__init__ (Lib.__init__ example_dll 32) None) [])
              11 [] eq_refl)
    as (o1 & o2 & H1 & H2 & Hsnd & Hfst).
  rewrite Hfst, Hsnd, H2, H1. split; reflexivity.
Defined.

(** X13: an ImageEngine scope whose entry returned runs its body on the
    entered engine and then makes exactly one more call, LPREngine_Destroy
    on the engine handle that entry stored, whether the body returned or
    raised; the exception of the body, if any, goes on unless the destroy
    call raises. *)
Theorem engine_scope_destroys_engine {B : Type}
  (self self' a : ImageEngine.t) (body : ImageEngine.t -> M B) (h h1 : trace) :
  ImageEngine.__enter__ self h = (inr (self', a), h1) ->
  exists engine o,
    ImageEngine.obj self' = Some engine
    /\ snd (with_ self body h)
       = snd (body self' h1) ++ [Ev (LPREngine_Destroy engine) o]
    /\ (forall e, o = Raises e -> fst (with_ self body h) = inl e)
    /\ (forall z o',
          o = Returns z o' ->
          fst (with_ self body h)
          = match fst (body self' h1) with
            | inl e => inl e
            | inr b => inr (self', b)
            end).
Proof.
  intros Henter.
  destruct (engine_enter_success _ _ _ _ _ Henter)
    as (p & out & engine & o1 & z & o & _ & -> & Hself).
  unfold with_; cbn [cm_enter cm_exit ImageEngine.manager].
  rewrite Henter. subst self'.
  destruct (body _ h1) as [r h2]. cbn [fst snd].
  unfold ImageEngine.__exit__, Lib.destroy_engine, bind, getattr, foreign, ret.
  cbn [ImageEngine.obj ImageEngine.lib].
  exists engine.
  destruct (Lib.lib (ImageEngine.lib self) h2 (LPREngine_Destroy engine))
    as [z' o' | e];
    eexists; cbn [fst snd];
    (split; [reflexivity |]);
    (split; [reflexivity |]);
    split; intros; try discriminate.
  - reflexivity.
  - congruence.
Qed.

(** An engine over the example library whose body checks the licence and
    then raises. *)
Lemma engine_scope_destroys_engine_witness :
  exists engine o,
    ImageEngine.obj entered_example_engine = Some engine
    /\ snd (with_ (ImageEngine.__init__ (Lib.__init__ example_dll 32) None)
              failing_body [])
       = snd (failing_body entered_example_engine
                [Ev LPRParams_Create (Returns 11 []);
                 Ev (LPREngine_Create 11 false None) (Returns 21 []);
                 Ev (LPRParams_Destroy 11) (Returns 0 [])])
         ++ [Ev (LPREngine_Destroy engine) o]
    /\ (forall e,
          o = Raises e ->
          fst (with_ (ImageEngine.__init__ (Lib.__init__ example_dll 32) None)
                 failing_body [])
          = inl e)
    /\ (forall z o',
          o = Returns z o' ->
          fst (with_ (ImageEngine.__init__ (Lib.__init__ example_dll 32) None)
                 failing_body [])
          = match fst (failing_body entered_example_engine
                         [Ev LPRParams_Create (Returns 11 []);
                          Ev (LPREngine_Create 11 false None) (Returns 21 []);
                          Ev (LPRParams_Destroy 11) (Returns 0 [])]) with
            | inl e => inl e
            | inr b => inr (entered_example_engine, b)
            end).
Proof.
  apply (engine_scope_destroys_engine
           (ImageEngine.__init__ (Lib.__init__ example_dll 32) None)
           entered_example_engine entered_example_engine failing_body []).
  reflexivity.
Defined.

(** X14: if LPRParams_Destroy raises after the engine was created, entry
    of the engine scope raises that exception; a with statement on the
    engine then runs neither its body nor __exit__, so the engine handle
    just created is never handed to LPREngine_Destroy. *)
Theorem engine_scope_leaks_when_params_destroy_raises {B : Type}
  (self : ImageEngine.t) (body : ImageEngine.t -> M B) (h : trace)
  (p engine : Z) (out o1 : list byte) (e : exn) :
  Lib.lib (EngineParams.lib (params_used self)) h LPRParams_Create
  = Returns p out ->
  Lib.lib (ImageEngine.lib self) (h ++ [Ev LPRParams_Create (Returns p out)])
    (LPREngine_Create p false None)
  = Returns engine o1 ->
  Lib.lib (EngineParams.lib (params_used self))
    ((h ++ [Ev LPRParams_Create (Returns p out)])
     ++ [Ev (LPREngine_Create p false None) (Returns engine o1)])
    (LPRParams_Destroy p)
  = Raises e ->
  with_ self body h
  = (inl e,
     h ++ [Ev LPRParams_Create (Returns p out);
           Ev (LPREngine_Create p false None) (Returns engine o1);
           Ev (LPRParams_Destroy p) (Raises e)]).
Proof.
  intros Hp He Hd.
  unfold with_; cbn [cm_enter ImageEngine.manager].
  rewrite engine_enter_run. cbn zeta. rewrite Hp, He, Hd.
  rewrite <- !app_assoc. reflexivity.
Qed.

Lemma engine_scope_leaks_when_params_destroy_raises_witness :
  with_ (ImageEngine.__init__ (Lib.__init__ params_destroy_raising_dll 32) None)
    (fun eng => ImageEngine.is_licensed eng) []
  = (inl OSError,
     [] ++ [Ev LPRParams_Create (Returns 11 []);
            Ev (LPREngine_Create 11 false None) (Returns 21 []);
            Ev (LPRParams_Destroy 11) (Raises OSError)]).
Proof.
  apply (engine_scope_leaks_when_params_destroy_raises
           (ImageEngine.__init__ (Lib.__init__ params_destroy_raising_dll 32) None)
           (fun eng => ImageEngine.is_licensed eng) [] 11 21 [] [] OSError);
    reflexivity.
Defined.

(** X15: an engine entered a second time enters the EngineParams object
    it kept from the first entry, creates a second engine and stores its
    handle over the first one; the two entries make six calls, none of
    them LPREngine_Destroy, so the first engine handle is dropped without
    being destroyed. *)
Theorem engine_reentry_overwrites_handle
  (self self1 a1 self2 a2 : ImageEngine.t) (h h1 h2 : trace) :
  ImageEngine.__enter__ self h = (inr (self1, a1), h1) ->
  ImageEngine.__enter__ self1 h1 = (inr (self2, a2), h2) ->
  exists p1 out1 engine1 o1 z1 d1 p2 out2 engine2 o2 z2 d2,
    h2 = h ++ [Ev LPRParams_Create (Returns p1 out1);
               Ev (LPREngine_Create p1 false None) (Returns engine1 o1);
               Ev (LPRParams_Destroy p1) (Returns z1 d1);
               Ev LPRParams_Create (Returns p2 out2);
               Ev (LPREngine_Create p2 false None) (Returns engine2 o2);
               Ev (LPRParams_Destroy p2) (Returns z2 d2)]
    /\ ImageEngine.obj self1 = Some engine1
    /\ ImageEngine.obj self2 = Some engine2
    /\ ImageEngine.params self2
       = Some {| EngineParams.lib := EngineParams.lib (params_used self);
                 EngineParams.obj := Some p2 |}.
Proof.
  intros H1 H2.
  destruct (engine_enter_success _ _ _ _ _ H1)
    as (p1 & out1 & engine1 & o1 & z1 & d1 & -> & _ & ->).
  destruct (engine_enter_success _ _ _ _ _ H2)
    as (p2 & out2 & engine2 & o2 & z2 & d2 & -> & _ & ->).
  exists p1, out1, engine1, o1, z1, d1, p2, out2, engine2, o2, z2, d2.
  rewrite <- app_assoc. repeat split.
Qed.

Lemma engine_reentry_overwrites_handle_witness :
  exists p1 out1 engine1 o1 z1 d1 p2 out2 engine2 o2 z2 d2,
    [Ev LPRParams_Create (Returns 100 []);
     Ev (LPREngine_Create 100 false None) (Returns 101 []);
     Ev (LPRParams_Destroy 100) (Returns 102 []);
     Ev LPRParams_Create (Returns 103 []);
     Ev (LPREngine_Create 103 false None) (Returns 104 []);
     Ev (LPRParams_Destroy 103) (Returns 105 [])]
    = [] ++ [Ev LPRParams_Create (Returns p1 out1);
             Ev (LPREngine_Create p1 false None) (Returns engine1 o1);
             Ev (LPRParams_Destroy p1) (Returns z1 d1);
             Ev LPRParams_Create (Returns p2 out2);
             Ev (LPREngine_Create p2 false None) (Returns engine2 o2);
             Ev (LPRParams_Destroy p2) (Returns z2 d2)]
    /\ ImageEngine.obj
         {| ImageEngine.lib := Lib.__init__ counter_dll 32;
            ImageEngine.params :=
              Some {| EngineParams.lib := Lib.__init__ counter_dll 32;
                      EngineParams.obj := Some 100 |};
            ImageEngine.obj := Some 101 |} = Some engine1
    /\ ImageEngine.obj
         {| ImageEngine.lib := Lib.__init__ counter_dll 32;
            ImageEngine.params :=
              Some {| EngineParams.lib := Lib.__init__ counter_dll 32;
                      EngineParams.obj := Some 103 |};
            ImageEngine.obj := Some 104 |} = Some engine2
    /\ ImageEngine.params
         {| ImageEngine.lib := Lib.__init__ counter_dll 32;
            ImageEngine.params :=
              Some {| EngineParams.lib := Lib.__init__ counter_dll 32;
                      EngineParams.obj := Some 103 |};
            ImageEngine.obj := Some 104 |}
       = Some {| EngineParams.lib :=
                   EngineParams.lib
                     (params_used
                        (ImageEngine.__init__ (Lib.__init__ counter_dll 32) None));
                 EngineParams.obj := Some p2 |}.
Proof.
  apply (engine_reentry_overwrites_handle
           (ImageEngine.__init__ (Lib.__init__ counter_dll 32) None)
           {| ImageEngine.lib := Lib.__init__ counter_dll 32;
              ImageEngine.params :=
                Some {| EngineParams.lib := Lib.__init__ counter_dll 32;
                        EngineParams.obj := Some 100 |};
              ImageEngine.obj := Some 101 |}
           {| ImageEngine.lib := Lib.__init__ counter_dll 32;
              ImageEngine.params :=
                Some {| EngineParams.lib := Lib.__init__ counter_dll 32;
                        EngineParams.obj := Some 100 |};
              ImageEngine.obj := Some 101 |}
           {| ImageEngine.lib := Lib.__init__ counter_dll 32;
              ImageEngine.params :=
                Some {| EngineParams.lib := Lib.__init__ counter_dll 32;
                        EngineParams.obj := Some 103 |};
              ImageEngine.obj := Some 104 |}
           {| ImageEngine.lib := Lib.__init__ counter_dll 32;
              ImageEngine.params :=
                Some {| EngineParams.lib := Lib.__init__ counter_dll 32;
                        EngineParams.obj := Some 103 |};
              ImageEngine.obj := Some 104 |}
           []
           [Ev LPRParams_Create (Returns 100 []);
            Ev (LPREngine_Create 100 false None) (Returns 101 []);
            Ev (LPRParams_Destroy 100) (Returns 102 [])]);
    reflexivity.
Defined.

(** X16: leaving an engine scope does not clear the stored handle: after
    __exit__ has destroyed the engine, a later is_licensed hands the same,
    destroyed handle to LPREngine_IsLicensed, and a second __exit__ hands
    it to LPREngine_Destroy again. *)
Theorem engine_exit_keeps_handle
  (self : ImageEngine.t) (engine : Z) (h : trace) (z : Z) (o : list byte) :
  ImageEngine.obj self = Some engine ->
  Lib.lib (ImageEngine.lib self) h (LPREngine_Destroy engine) = Returns z o ->
  exists o2 o3,
    snd ((ImageEngine.__exit__ self ;;; ImageEngine.is_licensed self) h)
    = h ++ [Ev (LPREngine_Destroy engine) (Returns z o);
            Ev (LPREngine_IsLicensed engine) o2]
    /\ snd ((ImageEngine.__exit__ self ;;; ImageEngine.__exit__ self) h)
       = h ++ [Ev (LPREngine_Destroy engine) (Returns z o);
               Ev (LPREngine_Destroy engine) o3].
Proof.
  intros Hobj Hd.
  unfold ImageEngine.__exit__, ImageEngine.is_licensed, Lib.destroy_engine,
    Lib.engine_licensed, bind, getattr, foreign, ret.
  rewrite Hobj. cbn iota beta. rewrite Hd.
  destruct (Lib.lib (ImageEngine.lib self)
              (h ++ [Ev (LPREngine_Destroy engine) (Returns z o)])
              (LPREngine_IsLicensed engine))
    as [z2 o2 | e2];
    destruct (Lib.lib (ImageEngine.lib self)
                (h ++ [Ev (LPREngine_Destroy engine) (Returns z o)])
                (LPREngine_Destroy engine))
      as [z3 o3 | e3];
    eexists _, _; cbn [snd]; rewrite <- !app_assoc; split; reflexivity.
Qed.

Lemma engine_exit_keeps_handle_witness :
  exists o2 o3,
    snd ((ImageEngine.__exit__ example_engine
          ;;; ImageEngine.is_licensed example_engine) [])
    = [] ++ [Ev (LPREngine_Destroy 21) (Returns 0 []);
             Ev (LPREngine_IsLicensed 21) o2]
    /\ snd ((ImageEngine.__exit__ example_engine
             ;;; ImageEngine.__exit__ example_engine) [])
       = [] ++ [Ev (LPREngine_Destroy 21) (Returns 0 []);
                Ev (LPREngine_Destroy 21) o3].
Proof.
  apply (engine_exit_keeps_handle example_engine 21 [] 0 []); reflexivity.
Defined.

(** X17: an engine that was constructed but not entered holds no handle:
    is_licensed and __exit__ raise AttributeError without a foreign call,
    as does __exit__ of a new EngineParams object, while activate, which
    uses no handle, makes its call on the encoded key all the same. *)
Theorem unentered_engine_has_no_handle
  (lib : Lib.t) (params : option EngineParams.t) (key : pystr) (h : trace) :
  ImageEngine.is_licensed (ImageEngine.__init__ lib params) h
  = (inl AttributeError, h)
  /\ ImageEngine.__exit__ (ImageEngine.__init__ lib params) h
     = (inl AttributeError, h)
  /\ EngineParams.__exit__ (EngineParams.__init__ lib) h = (inl AttributeError, h)
  /\ (forall data,
        encode key = inr data ->
        snd (ImageEngine.activate (ImageEngine.__init__ lib params) key h)
        = h ++ [Ev (LPREngine_ActivateLicenseOnline data)
                   (Lib.lib lib h (LPREngine_ActivateLicenseOnline data))]).
Proof.
  split; [reflexivity |]. split; [reflexivity |]. split; [reflexivity |].
  intros data Henc.
  unfold ImageEngine.activate, bind. rewrite activate_online_run, Henc.
  cbn [ImageEngine.__init__ ImageEngine.lib].
  destruct (Lib.lib lib h _) as [z out | e]; reflexivity.
Qed.

Lemma byte_of_N_to_N (n : N) : (n <= 255)%N -> Byte.to_N (byte_of_N n) = n.
Proof.
  intros Hn. unfold byte_of_N.
  destruct (Byte.of_N n) as [b |] eqn:Hb.
  - apply Byte.to_of_N. exact Hb.
  - apply Byte.of_N_None_iff in Hb. lia.
Qed.

(** The encoding of a string of ASCII characters: one byte per
    character. *)
Lemma encode_ascii (key : pystr) :
  forallb (fun c => (c <? 0x80)%N) key = true ->
  encode key = inr (map byte_of_N key).
Proof.
  induction key as [| c rest IH]; cbn [forallb encode map]; [reflexivity |].
  intros H. apply andb_true_iff in H. destruct H as [Hc Hrest].
  unfold encode_char. rewrite Hc, (IH Hrest). reflexivity.
Qed.

(** X18: a key made of ASCII characters reaches
    LPREngine_ActivateLicenseOnline as a buffer of exactly one byte per
    character, each byte the code of its character, with no terminating
    zero byte after them; when no character of the key is the NUL
    character, the buffer holds no zero byte at all. *)
Theorem activate_passes_ascii_key_unterminated
  (self : ImageEngine.t) (key : pystr) (h : trace) :
  forallb (fun c => (c <? 0x80)%N) key = true ->
  snd (ImageEngine.activate self key h)
  = h ++ [Ev (LPREngine_ActivateLicenseOnline (map byte_of_N key))
             (Lib.lib (ImageEngine.lib self) h
                (LPREngine_ActivateLicenseOnline (map byte_of_N key)))]
  /\ List.length (map byte_of_N key) = List.length key
  /\ map Byte.to_N (map byte_of_N key) = key
  /\ (forallb (fun c => (0 <? c)%N) key = true ->
      ~ In x00 (map byte_of_N key)).
Proof.
  intros Hascii. split; [| split; [| split]].
  - unfold ImageEngine.activate, bind.
    rewrite activate_online_run, (encode_ascii key Hascii).
    destruct (Lib.lib (ImageEngine.lib self) h _) as [z out | e]; reflexivity.
  - apply length_map.
  - clear h. induction key as [| c rest IH]; cbn [map forallb] in *; [reflexivity |].
    apply andb_true_iff in Hascii. destruct Hascii as [Hc Hrest].
    rewrite (IH Hrest), byte_of_N_to_N; [reflexivity |].
    apply N.ltb_lt in Hc. lia.
  - intros Hpos Hin. apply in_map_iff in Hin.
    destruct Hin as (c & Hzero & Hc).
    assert (Hlt : (c <? 0x80)%N = true)
      by (rewrite forallb_forall in Hascii; apply Hascii, Hc).
    assert (Hgt : (0 <? c)%N = true)
      by (rewrite forallb_forall in Hpos; apply Hpos, Hc).
    apply N.ltb_lt in Hlt, Hgt.
    pose proof (byte_of_N_to_N c ltac:(lia)) as Hto.
    rewrite Hzero in Hto. cbn in Hto. lia.
Qed.

(** The key AB-12. *)
Lemma activate_passes_ascii_key_unterminated_witness :
  snd (ImageEngine.activate example_engine [0x41; 0x42; 0x2d; 0x31; 0x32]%N [])
  = [] ++ [Ev (LPREngine_ActivateLicenseOnline
                 (map byte_of_N [0x41; 0x42; 0x2d; 0x31; 0x32]%N))
              (Lib.lib (ImageEngine.lib example_engine) []
                 (LPREngine_ActivateLicenseOnline
                    (map byte_of_N [0x41; 0x42; 0x2d; 0x31; 0x32]%N)))]
  /\ List.length (map byte_of_N [0x41; 0x42; 0x2d; 0x31; 0x32]%N)
     = List.length [0x41; 0x42; 0x2d; 0x31; 0x32]%N
  /\ map Byte.to_N (map byte_of_N [0x41; 0x42; 0x2d; 0x31; 0x32]%N)
     = [0x41; 0x42; 0x2d; 0x31; 0x32]%N
  /\ (forallb (fun c => (0 <? c)%N) [0x41; 0x42; 0x2d; 0x31; 0x32]%N = true ->
      ~ In x00 (map byte_of_N [0x41; 0x42; 0x2d; 0x31; 0x32]%N)).
Proof.
  apply (activate_passes_ascii_key_unterminated example_engine
           [0x41; 0x42; 0x2d; 0x31; 0x32]%N []).
  reflexivity.
Defined.

(** ** Descriptions *)

(** X19: descriptions are loaded eagerly.  Once [Result.__enter__] has
    returned, describe makes no foreign call and returns the loaded count
    and plate texts at any later point, also after the result handle has
    been destroyed, and the number of texts is the count (0 for a negative
    count); on a Result or Plate that was not entered, describe raises
    AttributeError. *)
Theorem describe_reads_loaded_values
  (lib : Lib.t) (r : Z) (h h1 : trace) (res a : Result.t) :
  Result.__enter__ (Result.__init__ r lib) h = (inr (res, a), h1) ->
  exists n ps,
    (forall later,
        Result.describe res later
        = (inr {| found := n; plates := ps |}, later))
    /\ len ps = Z.max 0 n
    /\ a = res
    /\ Result.obj res = r
    /\ (forall later,
          Result.describe (Result.__init__ r lib) later = (inl AttributeError, later))
    /\ (forall p later,
          Plate.describe (Plate.__init__ p lib) later = (inl AttributeError, later)).
Proof.
  intros Henter.
  unfold Result.__enter__, Result._load in Henter.
  unfold bind at 1 2 in Henter.
  unfold Lib.get_plates_count, bind, foreign, ret in Henter.
  cbn [Result.__init__ Result.lib Result.obj] in Henter.
  destruct (Lib.lib lib h _) as [n out0 | e]; [| discriminate].
  cbn [fst] in Henter. fold (Result.__init__ r lib) in Henter.
  destruct (Result.load_loop (Result.__init__ r lib) (range n) [] _)
    as [[e | ps] h2] eqn:Hloop; [discriminate |].
  injection Henter as <- <- _.
  apply load_loop_success in Hloop.
  destruct Hloop as (steps & Hidx & _ & Hps).
  exists n, ps. split; [intros later; reflexivity |]. split.
  - rewrite Hps, <- len_range, <- Hidx. cbn [app]. unfold len.
    rewrite !length_map. reflexivity.
  - repeat split.
Qed.

Lemma describe_reads_loaded_values_witness :
  exists n ps,
    (forall later,
        Result.describe
          {| Result.obj := 31; Result.lib := Lib.__init__ example_dll 32;
             Result.plates_count := Some 2;
             Result.plates := Some ["b'AB123CD'"%string; "b'XY999ZZ'"%string] |}
          later
        = (inr {| found := n; plates := ps |}, later))
    /\ len ps = Z.max 0 n
    /\ {| Result.obj := 31; Result.lib := Lib.__init__ example_dll 32;
          Result.plates_count := Some 2;
          Result.plates := Some ["b'AB123CD'"%string; "b'XY999ZZ'"%string] |}
       = {| Result.obj := 31; Result.lib := Lib.__init__ example_dll 32;
            Result.plates_count := Some 2;
            Result.plates := Some ["b'AB123CD'"%string; "b'XY999ZZ'"%string] |}
    /\ Result.obj
         {| Result.obj := 31; Result.lib := Lib.__init__ example_dll 32;
            Result.plates_count := Some 2;
            Result.plates := Some ["b'AB123CD'"%string; "b'XY999ZZ'"%string] |}
       = 31
    /\ (forall later,
          Result.describe (Result.__init__ 31 (Lib.__init__ example_dll 32)) later
          = (inl AttributeError, later))
    /\ (forall p later,
          Plate.describe (Plate.__init__ p (Lib.__init__ example_dll 32)) later
          = (inl AttributeError, later)).
Proof.
  apply (describe_reads_loaded_values (Lib.__init__ example_dll 32) 31 []
           [Ev (LPRResult_GetPlatesCount 31) (Returns 2 []);
            Ev (LPRResult_GetPlate 31 0) (Returns 41 []);
            Ev (LicensePlate_GetText 41 (repeat x00 32) 32)
               (Returns 7 [x41; x42; x31; x32; x33; x43; x44]);
            Ev (LicensePlate_Destroy 41) (Returns 0 []);
            Ev (LPRResult_GetPlate 31 1) (Returns 42 []);
            Ev (LicensePlate_GetText 42 (repeat x00 32) 32)
               (Returns 7 [x58; x59; x39; x39; x39; x5a; x5a]);
            Ev (LicensePlate_Destroy 42) (Returns 0 [])]).
  reflexivity.
Defined.
